(** * csv2pdf-cli: the CSV validation and receipt arithmetic of [main.py]

    A shallow embedding of [src/main.py] and of the parts of the Python
    runtime it calls ([str] methods, [decimal.Decimal] under the default
    context, [csv.reader] / [csv.DictReader], [re] search), followed by the
    properties of the loader, the field parsers and the placeholder check.

    Conventions.
    - A Python [str] is a [string] whose characters are the code points
      below 256; character classes are the Unicode ones on that range.
    - A raised exception is a value of [exn]; a function that can raise
      returns an [outcome].
    - [decimal] follows the reference implementation [_pydecimal] under the
      default context (prec 28, ROUND_HALF_EVEN, Emax 999999, Emin -999999,
      traps InvalidOperation, DivisionByZero, Overflow).
    - [csv.Sniffer.sniff] is not modelled: its heuristic works on floating
      point thresholds.  The loader takes it as a parameter.
    - [jinja2.Template] is not modelled either: the template loader takes
      the engine as a parameter.
    - The interpreter's optional limit on the length of integer strings is
      taken as switched off. *)

From Stdlib Require Import ZArith NArith Bool List Ascii String Lia.
From Stdlib Require Import DecimalString Sorted.
From Stdlib Require DecimalN.
Import ListNotations.

Local Open Scope string_scope.
Local Open Scope Z_scope.

(** ** Exceptions and outcomes *)

(** The messages of [CliError], by the line of [main.py] that raises them. *)
Inductive cli_error : Type :=
| DelimiterUndetected                 (* line 65 *)
| PriceNotSpecified                   (* line 75 *)
| PriceCommaSeparator                 (* line 77 *)
| PriceInvalid (text : string)        (* line 81 *)
| PriceNegative (text : string)       (* line 83 *)
| QtyNotSpecified                     (* line 91 *)
| QtyNotInteger (text : string)       (* line 93 *)
| CsvNotFound                         (* line 101 *)
| CsvEmpty                            (* line 104 *)
| NoHeader                            (* line 109 *)
| MissingColumns (names : string)     (* line 114 *)
| EmptyProduct                        (* line 120 *)
| NoData                              (* line 134 *)
| MissingPlaceholder (name : string)  (* line 145 *)
| TemplateNotFound.                   (* line 153 *)

Inductive exn : Type :=
| CliError (e : cli_error)
| InvalidOperation        (* decimal.InvalidOperation *)
| Overflow                (* decimal.Overflow *)
| ValueError
| TypeError
| CsvError                (* csv.Error *)
| TemplateSyntaxError.    (* jinja2.TemplateSyntaxError *)

Inductive outcome (A : Type) : Type :=
| Return (a : A)
| Raise (e : exn).

Arguments Return {A} a.
Arguments Raise {A} e.

Definition bind {A B : Type} (m : outcome A) (k : A -> outcome B) : outcome B :=
  match m with
  | Return a => k a
  | Raise e => Raise e
  end.

Notation "x <- m ;; k" := (bind m (fun x => k))
  (at level 61, m at next level, right associativity).

(** The spec's error kinds, as classes of [CliError] messages. *)
Definition is_FormatError (e : exn) : bool :=
  match e with
  | CliError PriceNotSpecified | CliError PriceCommaSeparator
  | CliError (PriceInvalid _) | CliError (PriceNegative _)
  | CliError QtyNotSpecified | CliError (QtyNotInteger _) => true
  | _ => false
  end.

Definition is_domain_error (e : exn) : bool :=
  match e with CliError _ => true | _ => false end.

(** ** Python strings *)

Module PyStr.

Definition code (c : ascii) : N := N_of_ascii c.

Definition in_range (lo hi : N) (c : ascii) : bool :=
  ((lo <=? code c) && (code c <=? hi))%N.

(** [str.isspace] of one character: what [str.strip] removes. *)
Definition isspace (c : ascii) : bool :=
  in_range 9 13 c || in_range 28 32 c || (code c =? 133)%N || (code c =? 160)%N.

(** Unicode category Nd: [str.isdecimal], the regular expression class \d
    and the digits [int] reads. *)
Definition isdecimal (c : ascii) : bool := in_range 48 57 c.

(** [str.isdigit] of one character: the decimal digits and the superscripts
    two, three and one. *)
Definition isdigit_char (c : ascii) : bool :=
  isdecimal c || in_range 178 179 c || (code c =? 185)%N.

(** The regular expression class \w: alphanumeric or underscore. *)
Definition isword (c : ascii) : bool :=
  in_range 48 57 c || in_range 65 90 c || (code c =? 95)%N || in_range 97 122 c
  || (code c =? 170)%N || in_range 178 179 c || (code c =? 181)%N
  || in_range 185 186 c || in_range 188 190 c || in_range 192 214 c
  || in_range 216 246 c || in_range 248 255 c.

Definition lower_char (c : ascii) : ascii :=
  if in_range 65 90 c || in_range 192 214 c || in_range 216 222 c
  then ascii_of_N (code c + 32)
  else c.

Fixpoint lower (s : string) : string :=
  match s with
  | EmptyString => EmptyString
  | String c s' => String (lower_char c) (lower s')
  end.

Fixpoint lstrip (s : string) : string :=
  match s with
  | EmptyString => EmptyString
  | String c s' => if isspace c then lstrip s' else s
  end.

Fixpoint rstrip (s : string) : string :=
  match s with
  | EmptyString => EmptyString
  | String c s' =>
      match rstrip s' with
      | EmptyString => if isspace c then EmptyString else String c EmptyString
      | t => String c t
      end
  end.

Definition strip (s : string) : string := rstrip (lstrip s).

(** [c in s] for a one-character [c]. *)
Fixpoint contains (c : ascii) (s : string) : bool :=
  match s with
  | EmptyString => false
  | String d s' => Ascii.eqb c d || contains c s'
  end.

Fixpoint forallb (p : ascii -> bool) (s : string) : bool :=
  match s with
  | EmptyString => true
  | String c s' => p c && forallb p s'
  end.

(** [str.isdigit]: at least one character and all of them digits. *)
Definition isdigit (s : string) : bool :=
  match s with
  | EmptyString => false
  | _ => forallb isdigit_char s
  end.

(** [s.replace(c, "")] for a one-character [c]. *)
Fixpoint remove (c : ascii) (s : string) : string :=
  match s with
  | EmptyString => EmptyString
  | String d s' => if Ascii.eqb c d then remove c s' else String d (remove c s')
  end.

(** The longest prefix of decimal digits, and the rest. *)
Fixpoint span_digits (s : string) : string * string :=
  match s with
  | String c s' =>
      if isdecimal c
      then let (ds, r) := span_digits s' in (String c ds, r)
      else (EmptyString, s)
  | EmptyString => (EmptyString, EmptyString)
  end.

Definition digit_value (c : ascii) : N := (code c - 48)%N.

(** The value of a string of decimal digits, [acc] being the digits read. *)
Fixpoint digits_value (acc : N) (s : string) : N :=
  match s with
  | EmptyString => acc
  | String c s' => digits_value (10 * acc + digit_value c)%N s'
  end.

(** [str(n)] for a non-negative [n]. *)
Definition str_of_N (n : N) : string := NilEmpty.string_of_uint (N.to_uint n).

(** [sep.join(l)]. *)
Fixpoint join (sep : string) (l : list string) : string :=
  match l with
  | [] => EmptyString
  | [x] => x
  | x :: l' => x ++ sep ++ join sep l'
  end.

(** The digits of an integer literal after the sign: digits with single
    underscores between them. *)
Fixpoint int_body (acc : N) (after_digit : bool) (s : string) : option N :=
  match s with
  | EmptyString => if after_digit then Some acc else None
  | String c s' =>
      if isdecimal c then int_body (10 * acc + digit_value c)%N true s'
      else if (code c =? 95)%N && after_digit then
        match s' with
        | String d _ => if isdecimal d then int_body acc false s' else None
        | EmptyString => None
        end
      else None
  end.

(** [int(s)] in base 10. *)
Definition int (s : string) : outcome Z :=
  let t := strip s in
  let (neg, body) :=
    match t with
    | String "-" r => (true, r)
    | String "+" r => (false, r)
    | _ => (false, t)
    end in
  match int_body 0 false body with
  | Some n => Return (if neg then - Z.of_N n else Z.of_N n)
  | None => Raise ValueError
  end.

End PyStr.

(** [raw or ""] for an optional string: [None] and the empty string give
    the empty string. *)
Definition or_empty (raw : option string) : string :=
  match raw with
  | Some s => s
  | None => EmptyString
  end.

(** ** [decimal.Decimal] under the default context *)

Module Decimal.

(** A finite number is (-1)^sign * coeff * 10^exp. *)
Inductive t : Type :=
| Fin (sign : bool) (coeff : N) (exp : Z)
| Inf (sign : bool)
| NaN (sign : bool) (signaling : bool) (payload : N).

Inductive rounding : Type := ROUND_HALF_UP | ROUND_HALF_EVEN.

Definition prec : Z := 28.
Definition Emax : Z := 999999.
Definition Emin : Z := -999999.
Definition Etiny : Z := Emin - prec + 1.
Definition Etop : Z := Emax - prec + 1.

Definition pow10 (k : Z) : N := (10 ^ Z.to_N k)%N.

Fixpoint ndigits_fuel (fuel : nat) (n : N) : Z :=
  match fuel with
  | O => 1
  | S f => if (n <? 10)%N then 1 else 1 + ndigits_fuel f (n / 10)%N
  end.

(** [len(self._int)]: the number of decimal digits of the coefficient, one
    for zero. *)
Definition ndigits (n : N) : Z := ndigits_fuel (N.to_nat (N.size n)) n.

Definition adjusted (c : N) (e : Z) : Z := e + ndigits c - 1.

(** The coefficient [c] with its last [drop] digits rounded away. *)
Definition round_coeff (r : rounding) (c : N) (drop : Z) : N :=
  let p := pow10 drop in
  let q := (c / p)%N in
  let m := (c mod p)%N in
  match r with
  | ROUND_HALF_UP => if (p <=? 2 * m)%N then (q + 1)%N else q
  | ROUND_HALF_EVEN =>
      if (p <? 2 * m)%N then (q + 1)%N
      else if (p =? 2 * m)%N && N.odd q then (q + 1)%N
      else q
  end.

(** [Decimal._rescale]. *)
Definition _rescale (d : t) (e : Z) (r : rounding) : t :=
  match d with
  | Fin s c e0 =>
      if (c =? 0)%N then Fin s 0 e
      else if e <=? e0 then Fin s (c * pow10 (e0 - e)) e
      else Fin s (round_coeff r c (e - e0)) e
  | _ => d
  end.

(** [Decimal._fix_nan]: the payload keeps its last [prec] digits. *)
Definition _fix_nan (d : t) : t :=
  match d with
  | NaN s sg p => NaN s sg (p mod pow10 prec)
  | _ => d
  end.

(** [Decimal._fix]: round to the context's precision and exponent range. *)
Definition _fix (d : t) : outcome t :=
  match d with
  | Fin s c e =>
      if (c =? 0)%N then Return (Fin s 0 (Z.min (Z.max e Etiny) Emax))
      else
        let exp_min := ndigits c + e - prec in
        if exp_min >? Etop then Raise Overflow
        else
          let exp_min := Z.max exp_min Etiny in
          if e <? exp_min then
            let c' := round_coeff ROUND_HALF_EVEN c (exp_min - e) in
            let (c'', e') :=
              if ndigits c' >? prec then ((c' / 10)%N, exp_min + 1)
              else (c', exp_min) in
            if e' >? Etop then Raise Overflow else Return (Fin s c'' e')
          else Return d
  | NaN _ _ _ => Return (_fix_nan d)
  | Inf _ => Return d
  end.

(** [Decimal._check_nans]: [Some] when an operand is a NaN. *)
Definition _check_nans (a b : t) : option (outcome t) :=
  match a, b with
  | NaN _ true _, _ => Some (Raise InvalidOperation)
  | _, NaN _ true _ => Some (Raise InvalidOperation)
  | NaN _ false _, _ => Some (Return (_fix_nan a))
  | _, NaN _ false _ => Some (Return (_fix_nan b))
  | _, _ => None
  end.

(** [Decimal(n)] for an [int]. *)
Definition of_int (n : Z) : t := Fin (n <? 0) (Z.abs_N n) 0.

(** [self < 0]. *)
Definition lt_zero (d : t) : outcome bool :=
  match d with
  | NaN _ _ _ => Raise InvalidOperation
  | Inf s => Return s
  | Fin s c _ => Return (s && negb (c =? 0)%N)
  end.

(** [Decimal.quantize(exp, rounding)]. *)
Definition quantize (d : t) (e : t) (r : rounding) : outcome t :=
  match _check_nans d e with
  | Some res => res
  | None =>
      match d, e with
      | Fin s c e0, Fin _ _ ee =>
          if negb ((Etiny <=? ee) && (ee <=? Emax)) then Raise InvalidOperation
          else if (c =? 0)%N then _fix (Fin s 0 ee)
          else if adjusted c e0 >? Emax then Raise InvalidOperation
          else if adjusted c e0 - ee + 1 >? prec then Raise InvalidOperation
          else
            match _rescale d ee r with
            | Fin s' c' e' =>
                if adjusted c' e' >? Emax then Raise InvalidOperation
                else if ndigits c' >? prec then Raise InvalidOperation
                else _fix (Fin s' c' e')
            | other => Return other
            end
      | Inf _, Inf _ => Return d
      | _, _ => Raise InvalidOperation
      end
  end.

(** [self * other]. *)
Definition mul (a b : t) : outcome t :=
  match _check_nans a b with
  | Some res => res
  | None =>
      match a, b with
      | Fin s1 c1 e1, Fin s2 c2 e2 => _fix (Fin (xorb s1 s2) (c1 * c2) (e1 + e2))
      | Inf s1, Fin s2 c2 _ =>
          if (c2 =? 0)%N then Raise InvalidOperation else Return (Inf (xorb s1 s2))
      | Fin s1 c1 _, Inf s2 =>
          if (c1 =? 0)%N then Raise InvalidOperation else Return (Inf (xorb s1 s2))
      | Inf s1, Inf s2 => Return (Inf (xorb s1 s2))
      | _, _ => Raise InvalidOperation
      end
  end.

(** [_normalize] for the operand [ct, et] of larger exponent and the other
    one: both coefficients at one exponent. *)
Definition align (ct : N) (et : Z) (co : N) (eo : Z) : N * N * Z :=
  let exp := et + Z.min (-1) (ndigits ct - prec - 2) in
  let (co', eo') := if ndigits co + eo - 1 <? exp then (1%N, exp) else (co, eo) in
  ((ct * pow10 (et - eo'))%N, co', eo').

Definition normalize (c1 : N) (e1 : Z) (c2 : N) (e2 : Z) : N * N * Z :=
  if e1 <? e2
  then let '(ct, co, e) := align c2 e2 c1 e1 in (co, ct, e)
  else align c1 e1 c2 e2.

(** [self + other]. *)
Definition add (a b : t) : outcome t :=
  match _check_nans a b with
  | Some res => res
  | None =>
      match a, b with
      | Fin s1 c1 e1, Fin s2 c2 e2 =>
          let exp := Z.min e1 e2 in
          if (c1 =? 0)%N && (c2 =? 0)%N then _fix (Fin (s1 && s2) 0 exp)
          else if (c1 =? 0)%N
          then _fix (_rescale b (Z.max exp (e2 - prec - 1)) ROUND_HALF_EVEN)
          else if (c2 =? 0)%N
          then _fix (_rescale a (Z.max exp (e1 - prec - 1)) ROUND_HALF_EVEN)
          else
            let '(n1, n2, e) := normalize c1 e1 c2 e2 in
            if xorb s1 s2 then
              if (n1 =? n2)%N then _fix (Fin false 0 exp)
              else if (n1 <? n2)%N then _fix (Fin s2 (n2 - n1) e)
              else _fix (Fin s1 (n1 - n2) e)
            else _fix (Fin s1 (n1 + n2) e)
      | Inf s1, Inf s2 => if xorb s1 s2 then Raise InvalidOperation else Return a
      | Inf _, _ => Return a
      | _, Inf _ => Return b
      | _, _ => Raise InvalidOperation
      end
  end.

(** Case-insensitive match of the lower-case literal [p] at the start of
    [s]: the rest of [s] after it. *)
Fixpoint ci_prefix (p s : string) : option string :=
  match p, s with
  | EmptyString, _ => Some s
  | String a p', String c s' =>
      if Ascii.eqb a (PyStr.lower_char c) then ci_prefix p' s' else None
  | String _ _, EmptyString => None
  end.

(** The numeric alternative of the constructor's grammar: digits with an
    optional fraction and an optional exponent, up to the end of the text. *)
Definition parse_number (s : string) : option (N * Z) :=
  let (intpart, r1) := PyStr.span_digits s in
  let (fracpart, r2) :=
    match r1 with
    | String "." r => PyStr.span_digits r
    | _ => (EmptyString, r1)
    end in
  match intpart, fracpart with
  | EmptyString, EmptyString => None
  | _, _ =>
      let coeff := PyStr.digits_value 0 (intpart ++ fracpart) in
      let shift := Z.of_nat (String.length fracpart) in
      match r2 with
      | EmptyString => Some (coeff, - shift)
      | String c r3 =>
          if Ascii.eqb (PyStr.lower_char c) "e" then
            let (neg, r4) :=
              match r3 with
              | String "-" r => (true, r)
              | String "+" r => (false, r)
              | _ => (false, r3)
              end in
            match PyStr.span_digits r4 with
            | (String d ds, EmptyString) =>
                let e := Z.of_N (PyStr.digits_value 0 (String d ds)) in
                Some (coeff, (if neg then - e else e) - shift)
            | _ => None
            end
          else None
      end
  end.

(** The infinities and NaNs of the constructor's grammar. *)
Definition parse_special (sign : bool) (s : string) : option t :=
  match ci_prefix "inf" s with
  | Some EmptyString => Some (Inf sign)
  | Some r =>
      match ci_prefix "inity" r with
      | Some EmptyString => Some (Inf sign)
      | _ => None
      end
  | None =>
      let (signaling, r) :=
        match ci_prefix "s" s with
        | Some r => (true, r)
        | None => (false, s)
        end in
      match ci_prefix "nan" r with
      | Some diag =>
          match PyStr.span_digits diag with
          | (ds, EmptyString) => Some (NaN sign signaling (PyStr.digits_value 0 ds))
          | _ => None
          end
      | None => None
      end
  end.

(** [Decimal(value)] for a [str]: surrounding whitespace and underscores are
    dropped; text outside the grammar raises InvalidOperation. *)
Definition of_string (value : string) : outcome t :=
  let s := PyStr.remove "_" (PyStr.strip value) in
  let (sign, r) :=
    match s with
    | String "-" r => (true, r)
    | String "+" r => (false, r)
    | _ => (false, s)
    end in
  match parse_number r with
  | Some (c, e) => Return (Fin sign c e)
  | None =>
      match parse_special sign r with
      | Some d => Return d
      | None => Raise InvalidOperation
      end
  end.

(** [str(d)] for the special values. *)
Definition special_str (d : t) : string :=
  match d with
  | Inf _ => "Infinity"
  | NaN _ sg p =>
      (if sg then "sNaN" else "NaN") ++ (if (p =? 0)%N then "" else PyStr.str_of_N p)
  | Fin _ _ _ => ""
  end.

(** [f"{d:.2f}"]: rounded to two places by the context's rounding, then
    written with a sign, the integer digits, a point and two digits. *)
Definition format_2f (d : t) : string :=
  match _rescale d (-2) ROUND_HALF_EVEN with
  | Fin s c _ =>
      let frac := PyStr.str_of_N (c mod 100) in
      (if s then "-" else "") ++ PyStr.str_of_N (c / 100) ++ "."
      ++ (if (c mod 100 <? 10)%N then "0" else "") ++ frac
  | other =>
      (match other with Inf true | NaN true _ _ => "-" | _ => "" end)
      ++ special_str other
  end.

End Decimal.

(** ** [csv.reader] and [csv.DictReader] *)

Module Csv.

Definition LF : ascii := "010"%char.
Definition CR : ascii := "013"%char.
Definition quotechar : ascii := "034"%char.

Definition is_newline (c : ascii) : bool := Ascii.eqb c LF || Ascii.eqb c CR.

(** The lines a text file opened with [newline=""] yields: split after
    LF, CR or CR LF, the terminator kept. *)
Fixpoint file_lines (cur : string) (s : string) : list string :=
  match s with
  | EmptyString => match cur with EmptyString => [] | _ => [cur] end
  | String c s' =>
      if Ascii.eqb c LF then (cur ++ String LF "") :: file_lines "" s'
      else if Ascii.eqb c CR then
        match s' with
        | String c' s'' =>
            if Ascii.eqb c' LF
            then (cur ++ String CR (String LF "")) :: file_lines "" s''
            else (cur ++ String CR "") :: file_lines "" s'
        | EmptyString => [cur ++ String CR ""]
        end
      else file_lines (cur ++ String c "") s'
  end.

(** What [Path.read_text] returns: CR LF and CR translated to LF. *)
Fixpoint read_text (s : string) : string :=
  match s with
  | EmptyString => EmptyString
  | String c s' =>
      if Ascii.eqb c CR then
        match s' with
        | String c' s'' =>
            if Ascii.eqb c' LF then String LF (read_text s'')
            else String LF (read_text s')
        | EmptyString => String LF ""
        end
      else String c (read_text s')
  end.

(** The parser states the excel dialect reaches (no escape character). *)
Inductive state : Type :=
| START_RECORD | START_FIELD | IN_FIELD
| IN_QUOTED_FIELD | QUOTE_IN_QUOTED_FIELD | EAT_CRNL.

Record parser : Type := mkParser {
  st : state;
  fields : list string;   (* the fields saved for the current record *)
  field : string          (* the field being read *)
}.

Definition field_limit : N := 131072.

Definition parse_reset : parser := mkParser START_RECORD [] "".

Definition parse_save_field (p : parser) (s : state) : parser :=
  mkParser s (fields p ++ [field p]) "".

Definition parse_add_char (p : parser) (s : state) (c : ascii) : outcome parser :=
  if (field_limit <=? N.of_nat (String.length (field p)))%N
  then Raise CsvError
  else Return (mkParser s (fields p) (field p ++ String c "")).

Definition set_state (p : parser) (s : state) : parser :=
  mkParser s (fields p) (field p).

(** [parse_process_char] for the dialect excel with the delimiter [d]:
    the double quote as quote character, doubled inside a quoted field,
    no escape character, not strict.
    [None] is the end of a line. *)
Definition parse_process_char (d : ascii) (p : parser) (c : option ascii)
  : outcome parser :=
  let start_field :=
    match c with
    | None => Return (parse_save_field p START_RECORD)
    | Some ch =>
        if is_newline ch then Return (parse_save_field p EAT_CRNL)
        else if Ascii.eqb ch quotechar then Return (set_state p IN_QUOTED_FIELD)
        else if Ascii.eqb ch d then Return (parse_save_field p START_FIELD)
        else parse_add_char p IN_FIELD ch
    end in
  match st p with
  | START_RECORD =>
      match c with
      | None => Return p
      | Some ch => if is_newline ch then Return (set_state p EAT_CRNL) else start_field
      end
  | START_FIELD => start_field
  | IN_FIELD =>
      match c with
      | None => Return (parse_save_field p START_RECORD)
      | Some ch =>
          if is_newline ch then Return (parse_save_field p EAT_CRNL)
          else if Ascii.eqb ch d then Return (parse_save_field p START_FIELD)
          else parse_add_char p IN_FIELD ch
      end
  | IN_QUOTED_FIELD =>
      match c with
      | None => Return p
      | Some ch =>
          if Ascii.eqb ch quotechar then Return (set_state p QUOTE_IN_QUOTED_FIELD)
          else parse_add_char p IN_QUOTED_FIELD ch
      end
  | QUOTE_IN_QUOTED_FIELD =>
      match c with
      | None => Return (parse_save_field p START_RECORD)
      | Some ch =>
          if Ascii.eqb ch quotechar then parse_add_char p IN_QUOTED_FIELD ch
          else if Ascii.eqb ch d then Return (parse_save_field p START_FIELD)
          else if is_newline ch then Return (parse_save_field p EAT_CRNL)
          else parse_add_char p IN_FIELD ch
      end
  | EAT_CRNL =>
      match c with
      | None => Return (set_state p START_RECORD)
      | Some ch => if is_newline ch then Return p else Raise CsvError
      end
  end.

(** The characters of one line, in order. *)
Fixpoint feed (d : ascii) (p : parser) (line : string) : outcome parser :=
  match line with
  | EmptyString => Return p
  | String c line' =>
      p' <- parse_process_char d p (Some c) ;;
      feed d p' line'
  end.

(** What iterating a reader gives: rows, then the end of the input or an
    exception. *)
Inductive rows : Type :=
| Stop
| Row (r : list string) (rest : rows)
| Fail (e : exn).

(** [Reader_iternext], repeated to the end of the input: a record takes
    lines until the parser is back at the start of a record. *)
Fixpoint read_records (d : ascii) (p : parser) (lines : list string) : rows :=
  match lines with
  | [] =>
      match st p, field p with
      | IN_QUOTED_FIELD, _ | _, String _ _ =>
          Row (fields (parse_save_field p START_RECORD)) Stop
      | _, EmptyString => Stop
      end
  | line :: lines' =>
      match (p' <- feed d p line ;; parse_process_char d p' None) with
      | Raise e => Fail e
      | Return p' =>
          match st p' with
          | START_RECORD => Row (fields p') (read_records d parse_reset lines')
          | _ => read_records d p' lines'
          end
      end
  end.

(** [csv.reader(fh, delimiter=d)] over the text of the file. *)
Definition reader (d : ascii) (content : string) : rows :=
  read_records d parse_reset (file_lines "" content).

(** A row of [DictReader]: the values under the string keys.  A cell is
    [None] where the row is shorter than the header.  (The surplus cells of
    a longer row go under the key [None], which no string key reads.) *)
Definition dict : Type := list (string * option string).

Fixpoint dict_set (k : string) (v : option string) (d : dict) : dict :=
  match d with
  | [] => [(k, v)]
  | (k', v') :: d' =>
      if String.eqb k k' then (k, v) :: d' else (k', v') :: dict_set k v d'
  end.

Fixpoint dict_find (k : string) (d : dict) : option (option string) :=
  match d with
  | [] => None
  | (k', v) :: d' => if String.eqb k k' then Some v else dict_find k d'
  end.

(** [d.get(k, default)]. *)
Definition get (d : dict) (k : string) (default : option string) : option string :=
  match dict_find k d with
  | Some v => v
  | None => default
  end.

(** [dict(zip(fieldnames, row))], then the keys without a cell set to the
    [restval] [None]. *)
Fixpoint make_row (acc : dict) (fieldnames row : list string) : dict :=
  match fieldnames, row with
  | [], _ => acc
  | k :: ks, v :: vs => make_row (dict_set k (Some v) acc) ks vs
  | k :: ks, [] => make_row (dict_set k None acc) ks []
  end.

(** [DictReader.fieldnames]: the first row the reader gives, [None] when it
    gives none. *)
Definition fieldnames (rs : rows) : outcome (option (list string)) :=
  match rs with
  | Stop => Return None
  | Row h _ => Return (Some h)
  | Fail e => Raise e
  end.

(** The rows left once the header row is taken. *)
Definition after_header (rs : rows) : rows :=
  match rs with
  | Row _ rest => rest
  | other => other
  end.

End Csv.

(** ** [main.py]: the field parsers *)

(** [Decimal("0.01")] and [Decimal("0.00")]. *)
Definition cent : Decimal.t := Decimal.Fin false 1 (-2).
Definition zero_total : Decimal.t := Decimal.Fin false 0 (-2).

Definition is_empty (s : string) : bool :=
  match s with EmptyString => true | _ => false end.

(** [parse_price], lines 71-84.  Only the constructor call is inside the
    [try]: what the comparison or [quantize] raise is not caught. *)
Definition parse_price (raw : option string) : outcome Decimal.t :=
  let text := PyStr.strip (or_empty raw) in
  if is_empty text then Raise (CliError PriceNotSpecified)
  else if PyStr.contains "," text && negb (PyStr.contains "." text)
  then Raise (CliError PriceCommaSeparator)
  else
    match Decimal.of_string text with
    | Raise InvalidOperation => Raise (CliError (PriceInvalid text))
    | Raise e => Raise e
    | Return value =>
        negative <- Decimal.lt_zero value ;;
        if negative : bool then Raise (CliError (PriceNegative text))
        else Decimal.quantize value cent Decimal.ROUND_HALF_UP
    end.

(** [parse_qty], lines 87-95. *)
Definition parse_qty (raw : option string) : outcome Z :=
  let text := PyStr.strip (or_empty raw) in
  if is_empty text then Raise (CliError QtyNotSpecified)
  else if negb (PyStr.isdigit text) then Raise (CliError (QtyNotInteger text))
  else PyStr.int text.

(** ** [main.py]: the loader *)

(** One entry of [items]: the price and the line total are kept as text. *)
Record item : Type := mkItem {
  product : string;
  price : string;
  qty : Z;
  line_total : string
}.

Fixpoint insert_sorted (x : string) (l : list string) : list string :=
  match l with
  | [] => [x]
  | y :: l' => if String.leb x y then x :: l else y :: insert_sorted x l'
  end.

(** [sorted(l)] for strings: by code points. *)
Definition sorted (l : list string) : list string :=
  fold_right insert_sorted [] l.

Definition mem (x : string) (l : list string) : bool := existsb (String.eqb x) l.

(** The set [{"product", "price", "qty"}]. *)
Definition required : list string := ["product"; "price"; "qty"].

(** [required - headers]. *)
Definition missing_columns (headers : list string) : list string :=
  filter (fun name => negb (mem name headers)) required.

(** The body of the loop of [read_csv_rows], lines 118-132. *)
Definition process_row (row : Csv.dict) (items : list item) (total : Decimal.t)
  : outcome (list item * Decimal.t) :=
  let product := PyStr.strip (or_empty (Csv.get row "product" None)) in
  if is_empty product then Raise (CliError EmptyProduct)
  else
    price <- parse_price (Csv.get row "price" (Some "")) ;;
    qty <- parse_qty (Csv.get row "qty" (Some "")) ;;
    exact <- Decimal.mul price (Decimal.of_int qty) ;;
    line_total <- Decimal.quantize exact cent Decimal.ROUND_HALF_UP ;;
    total' <- Decimal.add total line_total ;;
    Return ((items ++ [mkItem product (Decimal.format_2f price) qty
                               (Decimal.format_2f line_total)])%list,
            total').

(** [for row in reader], lines 117-132: [DictReader] passes over the rows
    without any field. *)
Fixpoint for_rows (fieldnames : list string) (rs : Csv.rows)
    (items : list item) (total : Decimal.t) : outcome (list item * Decimal.t) :=
  match rs with
  | Csv.Stop => Return (items, total)
  | Csv.Fail e => Raise e
  | Csv.Row [] rest => for_rows fieldnames rest items total
  | Csv.Row r rest =>
      st <- process_row (Csv.make_row [] fieldnames r) items total ;;
      for_rows fieldnames rest (fst st) (snd st)
  end.

Section Loader.

(** [csv.Sniffer().sniff(sample, delimiters=",;").delimiter], [None] when
    it raises [csv.Error]. *)
Variable sniff : string -> option string.

(** [detect_delimiter], lines 55-68. *)
Definition detect_delimiter (sample : string) : outcome string :=
  let possible := [","; ";"] in
  match sniff sample with
  | Some delimiter =>
      if mem delimiter possible then Return delimiter
      else Raise (CliError DelimiterUndetected)
  | None => Raise (CliError DelimiterUndetected)
  end.

(** [read_csv_rows], lines 98-136.  The file is [None] when the path does
    not exist, else its text. *)
Definition read_csv_rows (file : option string) : outcome (list item * Decimal.t) :=
  match file with
  | None => Raise (CliError CsvNotFound)
  | Some content =>
      let sample := Csv.read_text content in
      if is_empty (PyStr.strip sample) then Raise (CliError CsvEmpty)
      else
        delimiter <- detect_delimiter sample ;;
        match delimiter with
        | String d EmptyString =>
            let rs := Csv.reader d content in
            fieldnames <- Csv.fieldnames rs ;;
            match fieldnames with
            | None | Some [] => Raise (CliError NoHeader)
            | Some fieldnames =>
                let headers := map (fun h => PyStr.lower (PyStr.strip h)) fieldnames in
                let missing := missing_columns headers in
                match missing with
                | _ :: _ =>
                    Raise (CliError (MissingColumns (PyStr.join ", " (sorted missing))))
                | [] =>
                    st <- for_rows fieldnames (Csv.after_header rs) [] zero_total ;;
                    match fst st with
                    | [] => Raise (CliError NoData)
                    | items =>
                        total <- Decimal.quantize (snd st) cent Decimal.ROUND_HALF_UP ;;
                        Return (items, total)
                    end
                end
            end
        | _ => Raise TypeError
        end
  end.

End Loader.

(** A detector for the examples: the first comma or semicolon of the text. *)
Fixpoint first_delimiter (s : string) : option string :=
  match s with
  | EmptyString => None
  | String c s' =>
      if Ascii.eqb c "," || Ascii.eqb c ";" then Some (String c "")
      else first_delimiter s'
  end.

Definition nl : string := String Csv.LF "".

Definition apple_bread : string :=
  "product,price,qty" ++ nl ++ "Apple,1.50,2" ++ nl ++ "Bread,0.99,3".

(** ** [re]: the fragment the placeholder pattern uses *)

Module Regex.

Inductive re : Type :=
| Eps                      (* the empty pattern *)
| Chr (c : ascii)          (* a literal character *)
| NotChr (c : ascii)       (* a negated class of one character *)
| Word                     (* \w *)
| Boundary                 (* \b *)
| Cat (a b : re)
| Opt (a : re)
| Star (a : re).

Definition Plus (a : re) : re := Cat a (Star a).

(** The pattern that matches the text [s] literally, as [re.escape] makes
    it. *)
Fixpoint lit (s : string) : re :=
  match s with
  | EmptyString => Eps
  | String c s' => Cat (Chr c) (lit s')
  end.

Definition is_word (c : option ascii) : bool :=
  match c with
  | Some ch => PyStr.isword ch
  | None => false
  end.

Definition head (s : string) : option ascii :=
  match s with
  | String c _ => Some c
  | EmptyString => None
  end.

(** Zero or more rounds of [body], each on a shorter rest than the one
    before, then [k]. *)
Fixpoint star (body : option ascii -> string -> (option ascii -> string -> bool) -> bool)
    (k : option ascii -> string -> bool)
    (fuel : nat) (prev : option ascii) (s : string) : bool :=
  if k prev s then true
  else
    match fuel with
    | O => false
    | S fuel' =>
        body prev s
          (fun p' s' =>
             if (String.length s' <? String.length s)%nat
             then star body k fuel' p' s'
             else false)
    end.

(** [matches r prev s k]: [r] matches a prefix of [s], the character
    before [s] being [prev], and [k] accepts what is left. *)
Fixpoint matches (r : re) (prev : option ascii) (s : string)
    (k : option ascii -> string -> bool) {struct r} : bool :=
  match r with
  | Eps => k prev s
  | Chr c =>
      match s with
      | String d s' => if Ascii.eqb c d then k (Some d) s' else false
      | EmptyString => false
      end
  | NotChr c =>
      match s with
      | String d s' => if Ascii.eqb c d then false else k (Some d) s'
      | EmptyString => false
      end
  | Word =>
      match s with
      | String d s' => if PyStr.isword d then k (Some d) s' else false
      | EmptyString => false
      end
  | Boundary => if xorb (is_word prev) (is_word (head s)) then k prev s else false
  | Cat a b => matches a prev s (fun p' s' => matches b p' s' k)
  | Opt a => if matches a prev s k then true else k prev s
  | Star a => star (matches a) k (String.length s) prev s
  end.

(** [pattern.search(text)] as a truth value: a match at some position. *)
Fixpoint search_from (r : re) (prev : option ascii) (s : string) : bool :=
  if matches r prev s (fun _ _ => true) then true
  else
    match s with
    | String c s' => search_from r (Some c) s'
    | EmptyString => false
    end.

Definition search (r : re) (text : string) : bool := search_from r None text.

End Regex.

(** ** [main.py]: the template loader *)

(** The pattern of line 143 for one name: two opening braces, characters
    other than a closing brace, a word boundary, an optional word and dot,
    the name, a word boundary, characters other than a closing brace, two
    closing braces. *)
Definition placeholder_pattern (name : string) : Regex.re :=
  Regex.Cat (Regex.lit "{{")
    (Regex.Cat (Regex.Star (Regex.NotChr "}"))
       (Regex.Cat Regex.Boundary
          (Regex.Cat (Regex.Opt (Regex.Cat (Regex.Plus Regex.Word) (Regex.Chr ".")))
             (Regex.Cat (Regex.lit name)
                (Regex.Cat Regex.Boundary
                   (Regex.Cat (Regex.Star (Regex.NotChr "}")) (Regex.lit "}}"))))))).

Definition required_names : list string := ["product"; "price"; "qty"; "total"].

(** The loop of [ensure_placeholders], lines 142-148. *)
Fixpoint check_placeholders (names : list string) (template_text : string)
  : outcome unit :=
  match names with
  | [] => Return tt
  | name :: names' =>
      if Regex.search (placeholder_pattern name) template_text
      then check_placeholders names' template_text
      else Raise (CliError (MissingPlaceholder name))
  end.

(** [ensure_placeholders], lines 139-148. *)
Definition ensure_placeholders (template_text : string) : outcome unit :=
  check_placeholders required_names template_text.

Section Templates.

(** [jinja2.Template(text)]: the compiled template, or the exception of the
    engine on a text it cannot compile.  The engine is not modelled: the
    loader takes it as a parameter. *)
Variable template : Type.
Variable Template : string -> outcome template.

(** [load_template], lines 151-156.  The file is [None] when the path does
    not exist, else its text. *)
Definition load_template (file : option string) : outcome template :=
  match file with
  | None => Raise (CliError TemplateNotFound)
  | Some text =>
      _ <- ensure_placeholders text ;;
      Template text
  end.

End Templates.

Arguments load_template {template} Template file.

(** ** Inputs of the examples *)

(** The one-character text of the superscript two, code point 178. *)
Definition superscript_two : string := String "178" "".

(** A detector that reports the delimiter [d] for every sample. *)
Definition sniffed (d : string) : string -> option string := fun _ => Some d.

Definition capital_header : string :=
  "Product,Price,Qty" ++ nl ++ "Apple,1.50,2" ++ nl ++ "Bread,0.99,3".

Definition subtotal_template : string :=
  "{{ item.product }} {{ item.price }} {{ item.qty }} {{ subtotal }}".

(** The header names as the column check compares them. *)
Definition normalized (fieldnames : list string) : list string :=
  map (fun h => PyStr.lower (PyStr.strip h)) fieldnames.

(** The rows of a file with no data: rows without fields up to the end. *)
Fixpoint no_data_rows (rs : Csv.rows) : bool :=
  match rs with
  | Csv.Stop => true
  | Csv.Row [] rest => no_data_rows rest
  | _ => false
  end.

Definition alphabetical (names : list string) : Prop :=
  StronglySorted (fun a b => String.ltb a b = true) names.

Definition header_only_csv : string := "product,price,qty" ++ nl.

(** ** The same file with semicolons for commas *)

Definition to_semicolon_char (c : ascii) : ascii :=
  if Ascii.eqb c "," then ";"%char else c.

Fixpoint to_semicolon (s : string) : string :=
  match s with
  | EmptyString => EmptyString
  | String c s' => String (to_semicolon_char c) (to_semicolon s')
  end.

Definition comma_free (s : string) : bool := negb (PyStr.contains "," s).

(** [p] holds of every field of every row. *)
Fixpoint rows_forallb (p : string -> bool) (rs : Csv.rows) : bool :=
  match rs with
  | Csv.Stop => true
  | Csv.Row r rest => List.forallb p r && rows_forallb p rest
  | Csv.Fail _ => true
  end.

Fixpoint map_rows (f : string -> string) (rs : Csv.rows) : Csv.rows :=
  match rs with
  | Csv.Stop => Csv.Stop
  | Csv.Row r rest => Csv.Row (map f r) (map_rows f rest)
  | Csv.Fail e => Csv.Fail e
  end.

Definition map_parser (f : string -> string) (p : Csv.parser) : Csv.parser :=
  Csv.mkParser (Csv.st p) (map f (Csv.fields p)) (f (Csv.field p)).

Definition map_outcome {A B : Type} (f : A -> B) (m : outcome A) : outcome B :=
  match m with
  | Return a => Return (f a)
  | Raise e => Raise e
  end.

Definition semicolon_csv : string :=
  "product;price;qty" ++ nl ++ "Apple;1.50;2" ++ nl ++ "Bread;0.99;3".

(** The rows the loop of the loader works on: the rows with a field, up to
    the end of the input or the first exception. *)
Fixpoint data_rows (rs : Csv.rows) : list (list string) :=
  match rs with
  | Csv.Row [] rest => data_rows rest
  | Csv.Row r rest => r :: data_rows rest
  | _ => []
  end.

(** The product the loader reads from a row, line 118. *)
Definition product_of (fieldnames row : list string) : string :=
  PyStr.strip (or_empty (Csv.get (Csv.make_row [] fieldnames row) "product" None)).

(** The running total against the exact sum [sum] of the line totals, in
    hundredths: either the total is that sum with two places, or it has
    grown to 27 digits or more before the point. *)
Definition running (total : Decimal.t) (sum : Z) : Prop :=
  exists c e,
    total = Decimal.Fin false c e
    /\ ((e = -2 /\ Z.of_N c = sum /\ Decimal.ndigits c <= Decimal.prec)
        \/ (c <> 0%N /\ 26 < Decimal.ndigits c + e)).
(** ** The arithmetic as the receipt states it: exact decimals *)

Module Exact.

(** The number [m * 10^e]. *)
Definition value : Type := (Z * Z)%type.

Definition of_decimal (d : Decimal.t) : value :=
  match d with
  | Decimal.Fin s c e => (if s then - Z.of_N c else Z.of_N c, e)
  | _ => (0, 0)
  end.

Definition mul_int (v : value) (n : Z) : value := (fst v * n, snd v).

Definition add (a b : value) : value :=
  let e := Z.min (snd a) (snd b) in
  (fst a * 10 ^ (snd a - e) + fst b * 10 ^ (snd b - e), e).

Definition sum (l : list value) : value := fold_right add (0, 0) l.

(** [v] rounded to [places] fractional digits, a tie going away from
    zero. *)
Definition round_half_up (places : Z) (v : value) : value :=
  let t := - places in
  let (m, e) := v in
  if t <=? e then (m * 10 ^ (e - t), t)
  else
    let p := 10 ^ (t - e) in
    (Z.sgn m * ((2 * Z.abs m + p) / (2 * p)), t).

End Exact.

(** A line of the receipt before its amounts are written as text. *)
Record line : Type := mkLine {
  l_product : string;
  l_price : Decimal.t;
  l_qty : Z;
  l_total : Decimal.t
}.

(** The entry of [items] for a line, lines 125-132. *)
Definition item_of_line (l : line) : item :=
  mkItem (l_product l) (Decimal.format_2f (l_price l)) (l_qty l)
         (Decimal.format_2f (l_total l)).

Definition two_places (d : Decimal.t) : Prop :=
  exists s c, d = Decimal.Fin s c (-2).

(** The line total is the price times the quantity, rounded half up to
    two places. *)
Definition line_ok (l : line) : Prop :=
  two_places (l_price l) /\ two_places (l_total l) /\ 0 <= l_qty l
  /\ Exact.of_decimal (l_total l)
     = Exact.round_half_up 2 (Exact.mul_int (Exact.of_decimal (l_price l)) (l_qty l)).

(** The line totals of a list of lines, in hundredths, added up. *)
Definition sum_cents (lines : list line) : Z :=
  fold_right (fun l acc => fst (Exact.of_decimal (l_total l)) + acc) 0 lines.

(** ** Placeholders as whole words *)

(** The last character of [s], or [prev] when [s] is empty. *)
Fixpoint last_char (prev : option ascii) (s : string) : option ascii :=
  match s with
  | EmptyString => prev
  | String c s' => last_char (Some c) s'
  end.

(** [text] holds two opening braces, then [name] as a whole word with no
    closing brace before or after it, then two closing braces. *)
Definition whole_word_placeholder (name text : string) : Prop :=
  exists pre a b post,
    text = pre ++ "{{" ++ a ++ name ++ b ++ "}}" ++ post
    /\ PyStr.contains "}" a = false
    /\ PyStr.contains "}" b = false
    /\ Regex.is_word (last_char None a) = false
    /\ Regex.is_word (Regex.head b) = false.

(** A name that starts and ends with a word character. *)
Definition word_name (name : string) : Prop :=
  Regex.is_word (Regex.head name) = true
  /\ Regex.is_word (last_char None name) = true.

(** The pattern of line 143 from the name on. *)
Definition name_tail (name : string) : Regex.re :=
  Regex.Cat (Regex.lit name)
    (Regex.Cat Regex.Boundary
       (Regex.Cat (Regex.Star (Regex.NotChr "}")) (Regex.lit "}}"))).

(** ** Amounts as they are printed *)

(** The characters of an amount written with two places. *)
Definition amount_char (c : ascii) : bool :=
  PyStr.isdecimal c || Ascii.eqb c "." || Ascii.eqb c "-".

(** The two digits of the hundredths, as [format_2f] writes them. *)
Definition hundredths (m : N) : string :=
  (if (m <? 10)%N then "0" else "") ++ PyStr.str_of_N m.

Definition hundredths_ok (m : N) : bool :=
  match hundredths m with
  | String d1 (String d2 EmptyString) =>
      PyStr.isdecimal d1 && PyStr.isdecimal d2
      && (10 * PyStr.digit_value d1 + PyStr.digit_value d2 =? m)%N
  | _ => false
  end.

(** The texts of an item read back as numbers: the line total is the price
    times the quantity, rounded half up to two places. *)
Definition item_adds_up (it : item) : Prop :=
  exists p t,
    two_places p /\ two_places t
    /\ Decimal.of_string (price it) = Return p
    /\ Decimal.of_string (line_total it) = Return t
    /\ Exact.of_decimal t
       = Exact.round_half_up 2 (Exact.mul_int (Exact.of_decimal p) (qty it)).

(** ** The names of the header, as the spec compares them *)

(** [c] is the letter [n] in lower or upper case, for a letter [n] from a
    to z; any other [n] is only itself. *)
Definition same_letter (c n : ascii) : bool :=
  Ascii.eqb c n
  || (PyStr.in_range 97 122 n && (PyStr.code c + 32 =? PyStr.code n)%N).

(** [cell] is [name] letter for letter, the case of the letters aside. *)
Fixpoint spells (cell name : string) : bool :=
  match cell, name with
  | EmptyString, EmptyString => true
  | String c cell', String n name' => same_letter c n && spells cell' name'
  | _, _ => false
  end.

(** The comparison in the words of the spec: no name of the header is
    [name], the case of the letters aside. *)
Definition lacks_ci (h : list string) (name : string) : Prop :=
  forall cell, In cell h -> spells cell name = false.

(** The comparison of the loader: [cell] is [name], the case of the
    letters and the whitespace around the name aside. *)
Definition names_column (cell name : string) : Prop :=
  exists pre w post,
    cell = pre ++ w ++ post
    /\ PyStr.forallb PyStr.isspace pre = true
    /\ PyStr.forallb PyStr.isspace post = true
    /\ spells w name = true.

Definition header_has (h : list string) (name : string) : Prop :=
  exists cell, In cell h /\ names_column cell name.

(** A name written in the letters a to z. *)
Definition lower_name (name : string) : Prop :=
  name <> "" /\ PyStr.forallb (PyStr.in_range 97 122) name = true.

Definition all_chars : list ascii := map ascii_of_nat (seq 0 256).

(** [same_letter] against [str.lower], and letters against whitespace, at
    one pair of characters. *)
Definition letter_check (c n : ascii) : bool :=
  implb (PyStr.in_range 97 122 n)
        (Bool.eqb (same_letter c n) (Ascii.eqb (PyStr.lower_char c) n)
         && implb (same_letter c n) (negb (PyStr.isspace c))).

Definition upper_no_qty_csv : string := "Product, PRICE" ++ nl ++ "Apple,1.50".

Definition qty_only_csv : string := "QTY;note" ++ nl ++ "2;x".

Definition padded_qty_csv : string := "product,price, qty" ++ nl ++ "Apple,1.50,2".

Definition one_column_csv : string := "product" ++ nl ++ "Apple".

(** A detector that finds no delimiter in any sample. *)
Definition undetected : string -> option string := fun _ => None.

(** * Properties *)

(** ** The model on concrete inputs *)

Example strip_ex : PyStr.strip "  1.50 " = "1.50".
Proof. reflexivity. Qed.

Example int_ex : PyStr.int "0012" = Return 12.
Proof. reflexivity. Qed.

Example int_superscript : PyStr.int (String "178" "") = Raise ValueError.
Proof. reflexivity. Qed.

Example isdigit_superscript : PyStr.isdigit (String "178" "") = true.
Proof. reflexivity. Qed.

Example of_string_ex1 : Decimal.of_string "1.50" = Return (Decimal.Fin false 150 (-2)).
Proof. reflexivity. Qed.

Example of_string_ex2 : Decimal.of_string "+.5e+1" = Return (Decimal.Fin false 5 0).
Proof. reflexivity. Qed.

Example of_string_ex3 : Decimal.of_string "-sNaN12" = Return (Decimal.NaN true true 12).
Proof. reflexivity. Qed.

Example of_string_ex4 : Decimal.of_string "1,5.0" = Raise InvalidOperation.
Proof. reflexivity. Qed.

Example format_ex : Decimal.format_2f (Decimal.Fin false 5 (-2)) = "0.05".
Proof. reflexivity. Qed.

Example reader_ex :
  Csv.reader ","
    ("a," ++ String Csv.quotechar ("b,c" ++ String Csv.quotechar
       (String Csv.CR (String Csv.LF (String Csv.LF "d")))))
  = Csv.Row ["a"; "b,c"] (Csv.Row [] (Csv.Row ["d"] Csv.Stop)).
Proof. reflexivity. Qed.

Example cent_literal : Decimal.of_string "0.01" = Return cent.
Proof. reflexivity. Qed.

Example zero_total_literal : Decimal.of_string "0.00" = Return zero_total.
Proof. reflexivity. Qed.

Example read_apple_bread :
  read_csv_rows first_delimiter (Some apple_bread)
  = Return ([mkItem "Apple" "1.50" 2 "3.00"; mkItem "Bread" "0.99" 3 "2.97"],
            Decimal.Fin false 597 (-2)).
Proof. vm_compute. reflexivity. Qed.

Example placeholders_ok :
  ensure_placeholders
    "{{ item.product }} {{ item.price }} {{ item.qty }} {{ total }}" = Return tt.
Proof. vm_compute. reflexivity. Qed.

(** ** The field parsers *)

(** C2.  The price parser has an outcome outside the ones listed: the
    texts NaN, Infinity and 1e30 pass the constructor, and the comparison
    with zero or the rounding raises decimal.InvalidOperation, which is not
    the domain error. *)
Theorem parse_price_raises_InvalidOperation :
  parse_price (Some "NaN") = Raise InvalidOperation
  /\ parse_price (Some "Infinity") = Raise InvalidOperation
  /\ parse_price (Some "1e30") = Raise InvalidOperation
  /\ is_FormatError InvalidOperation = false.
Proof. repeat split; vm_compute; reflexivity. Qed.

(** C3.  The quantity parser has an outcome outside the ones listed: the
    superscript two passes [str.isdigit], and [int] raises ValueError. *)
Theorem parse_qty_raises_ValueError :
  PyStr.isdigit superscript_two = true
  /\ parse_qty (Some superscript_two) = Raise ValueError
  /\ is_FormatError ValueError = false.
Proof. repeat split; vm_compute; reflexivity. Qed.

(** C10.  The price parser accepts exponent notation: the text 1e2 gives
    the value 100.00. *)
Theorem parse_price_exponent :
  parse_price (Some "1e2") = Return (Decimal.Fin false 10000 (-2))
  /\ Decimal.format_2f (Decimal.Fin false 10000 (-2)) = "100.00".
Proof. split; vm_compute; reflexivity. Qed.

(** ** The header *)

(** C4.  With the header Product,Price,Qty the column check passes, and the
    first data row fails on the product: the cells are read under the
    lower-case keys, which such a row does not have.  The same rows under a
    lower-case header load. *)
Theorem capital_header_fails :
  read_csv_rows (sniffed ",") (Some capital_header) = Raise (CliError EmptyProduct)
  /\ read_csv_rows (sniffed ",") (Some apple_bread)
     = Return ([mkItem "Apple" "1.50" 2 "3.00"; mkItem "Bread" "0.99" 3 "2.97"],
               Decimal.Fin false 597 (-2)).
Proof. split; vm_compute; reflexivity. Qed.

(** ** The placeholder check *)

(** C5, as stated, fails: a template whose only candidate for total is the
    placeholder of subtotal does not pass the check for total. *)
Lemma subtotal_does_not_satisfy_total :
  Regex.search (placeholder_pattern "total") "{{ subtotal }}" = false
  /\ ensure_placeholders subtotal_template
     = Raise (CliError (MissingPlaceholder "total")).
Proof. split; vm_compute; reflexivity. Qed.

(** ** The loader up to the header *)

Lemma mem_In x l : mem x l = true <-> In x l.
Proof.
  unfold mem. rewrite existsb_exists. split.
  - intros [y [Hy He]]. apply String.eqb_eq in He. now subst.
  - intros H. exists x. split; [assumption | apply String.eqb_refl].
Qed.

Lemma mem_not_In x l : mem x l = false <-> ~ In x l.
Proof.
  rewrite <- mem_In. destruct (mem x l); split; congruence.
Qed.

(** What [read_csv_rows] does once the file is read, the delimiter found
    and the header row taken. *)
Lemma read_csv_rows_after_header sniff content d h rest :
  is_empty (PyStr.strip (Csv.read_text content)) = false ->
  sniff (Csv.read_text content) = Some (String d "") ->
  mem (String d "") [","; ";"] = true ->
  Csv.reader d content = Csv.Row h rest ->
  h <> [] ->
  read_csv_rows sniff (Some content)
  = match missing_columns (normalized h) with
    | _ :: _ =>
        Raise (CliError (MissingColumns
                 (PyStr.join ", " (sorted (missing_columns (normalized h))))))
    | [] =>
        st <- for_rows h rest [] zero_total ;;
        match fst st with
        | [] => Raise (CliError NoData)
        | items =>
            total <- Decimal.quantize (snd st) cent Decimal.ROUND_HALF_UP ;;
            Return (items, total)
        end
    end.
Proof.
  intros Hne Hs Hd Hr Hh.
  unfold read_csv_rows, detect_delimiter. rewrite Hne, Hs, Hd. cbn [bind].
  rewrite Hr. cbn [Csv.fieldnames bind Csv.after_header].
  destruct h as [|h0 h']; [congruence|].
  fold (normalized (h0 :: h')).
  destruct (missing_columns (normalized (h0 :: h'))); reflexivity.
Qed.

Lemma insert_sorted_In x y l : In y (insert_sorted x l) <-> y = x \/ In y l.
Proof.
  induction l as [|z l IH]; cbn [insert_sorted In].
  - intuition congruence.
  - destruct (String.leb x z); cbn [In]; [intuition congruence|].
    rewrite IH. intuition congruence.
Qed.

Lemma sorted_In y l : In y (sorted l) <-> In y l.
Proof.
  unfold sorted. induction l as [|x l IH]; cbn [fold_right In]; [tauto|].
  rewrite insert_sorted_In, IH. intuition congruence.
Qed.

Lemma missing_columns_In n headers :
  In n (missing_columns headers) <-> In n required /\ ~ In n headers.
Proof.
  unfold missing_columns. rewrite filter_In, negb_true_iff, mem_not_In. tauto.
Qed.

Ltac eval_sorted :=
  match goal with
  | |- context [sorted ?l] =>
      let v := eval vm_compute in (sorted l) in change (sorted l) with v
  end.

Lemma sorted_missing_alphabetical headers :
  alphabetical (sorted (missing_columns headers)).
Proof.
  unfold missing_columns, required, alphabetical. cbn [filter].
  destruct (mem "product" headers), (mem "price" headers), (mem "qty" headers);
    cbn [negb]; eval_sorted; repeat constructor.
Qed.

(** ** The names of the header *)

Lemma in_all_chars c : In c all_chars.
Proof.
  unfold all_chars. apply in_map_iff. exists (nat_of_ascii c).
  split; [apply ascii_nat_embedding|].
  apply in_seq. pose proof (nat_ascii_bounded c). lia.
Qed.

Lemma letter_check_all c n : letter_check c n = true.
Proof.
  assert (H : List.forallb (fun c => List.forallb (letter_check c) all_chars)
                all_chars = true) by (vm_compute; reflexivity).
  rewrite forallb_forall in H. specialize (H c (in_all_chars c)).
  rewrite forallb_forall in H. exact (H n (in_all_chars n)).
Qed.

Lemma same_letter_lower c n :
  PyStr.in_range 97 122 n = true ->
  same_letter c n = Ascii.eqb (PyStr.lower_char c) n.
Proof.
  intros Hn. pose proof (letter_check_all c n) as H.
  unfold letter_check in H. rewrite Hn in H. cbn [implb] in H.
  apply andb_true_iff in H. destruct H as [H _].
  now apply eqb_prop in H.
Qed.

Lemma same_letter_not_space c n :
  PyStr.in_range 97 122 n = true ->
  same_letter c n = true -> PyStr.isspace c = false.
Proof.
  intros Hn Hc. pose proof (letter_check_all c n) as H.
  unfold letter_check in H. rewrite Hn, Hc in H. cbn [implb] in H.
  apply andb_true_iff in H. destruct H as [_ H].
  now apply negb_true_iff in H.
Qed.

Lemma spells_lower w : forall name,
  PyStr.forallb (PyStr.in_range 97 122) name = true ->
  (spells w name = true <-> PyStr.lower w = name).
Proof.
  induction w as [|c w IH]; intros [|n name] Hn; cbn [spells PyStr.lower];
    try (split; [discriminate | congruence]); [tauto|].
  cbn [PyStr.forallb] in Hn. apply andb_true_iff in Hn. destruct Hn as [Hc Hn].
  rewrite andb_true_iff, (same_letter_lower c n Hc), (IH name Hn).
  split.
  - intros [H1 H2]. apply Ascii.eqb_eq in H1. now subst.
  - intros H. injection H as H1 H2. split; [now apply Ascii.eqb_eq | assumption].
Qed.

Lemma spells_no_space w : forall name,
  PyStr.forallb (PyStr.in_range 97 122) name = true ->
  spells w name = true ->
  PyStr.forallb (fun c => negb (PyStr.isspace c)) w = true.
Proof.
  induction w as [|c w IH]; intros [|n name] Hn H; cbn [spells] in H;
    try discriminate H; [reflexivity|].
  cbn [PyStr.forallb] in Hn. apply andb_true_iff in Hn. destruct Hn as [Hc Hn].
  apply andb_true_iff in H. destruct H as [H1 H2].
  cbn [PyStr.forallb]. rewrite (same_letter_not_space c n Hc H1).
  exact (IH name Hn H2).
Qed.

(** [str.strip] takes the whitespace around a word, and nothing else. *)
Lemma lstrip_app_spaces pre s :
  PyStr.forallb PyStr.isspace pre = true ->
  PyStr.lstrip (pre ++ s) = PyStr.lstrip s.
Proof.
  induction pre as [|c pre IH]; [reflexivity|].
  cbn [PyStr.forallb]. rewrite andb_true_iff. intros [Hc Hp].
  cbn [append PyStr.lstrip]. rewrite Hc. exact (IH Hp).
Qed.

Lemma rstrip_spaces s :
  PyStr.forallb PyStr.isspace s = true -> PyStr.rstrip s = "".
Proof.
  induction s as [|c s IH]; [reflexivity|].
  cbn [PyStr.forallb]. rewrite andb_true_iff. intros [Hc Hs].
  cbn [PyStr.rstrip]. now rewrite (IH Hs), Hc.
Qed.

Lemma rstrip_app_spaces w post :
  PyStr.forallb PyStr.isspace post = true ->
  PyStr.rstrip (w ++ post) = PyStr.rstrip w.
Proof.
  intros Hp. induction w as [|c w IH]; [exact (rstrip_spaces post Hp)|].
  cbn [append PyStr.rstrip]. now rewrite IH.
Qed.

Lemma rstrip_word w :
  PyStr.forallb (fun c => negb (PyStr.isspace c)) w = true -> PyStr.rstrip w = w.
Proof.
  induction w as [|c w IH]; [reflexivity|].
  cbn [PyStr.forallb]. rewrite andb_true_iff, negb_true_iff. intros [Hc Hw].
  cbn [PyStr.rstrip]. rewrite (IH Hw), Hc. now destruct w.
Qed.

Lemma strip_padded_word pre w post :
  w <> "" ->
  PyStr.forallb (fun c => negb (PyStr.isspace c)) w = true ->
  PyStr.forallb PyStr.isspace pre = true ->
  PyStr.forallb PyStr.isspace post = true ->
  PyStr.strip (pre ++ w ++ post) = w.
Proof.
  intros Hne Hw Hpre Hpost. unfold PyStr.strip.
  rewrite (lstrip_app_spaces pre _ Hpre).
  destruct w as [|c w]; [congruence|].
  pose proof Hw as Hw'.
  cbn [PyStr.forallb] in Hw'. apply andb_true_iff in Hw'.
  destruct Hw' as [Hc _]. apply negb_true_iff in Hc.
  cbn [append PyStr.lstrip]. rewrite Hc.
  change (String c (w ++ post)) with (String c w ++ post).
  rewrite (rstrip_app_spaces _ post Hpost). now apply rstrip_word.
Qed.

Lemma lstrip_split s :
  exists pre, s = pre ++ PyStr.lstrip s /\ PyStr.forallb PyStr.isspace pre = true.
Proof.
  induction s as [|c s (pre & E & Hp)]; [now exists ""|].
  cbn [PyStr.lstrip]. destruct (PyStr.isspace c) eqn:Ec.
  - exists (String c pre). cbn [append PyStr.forallb]. rewrite Ec, Hp.
    split; [now f_equal | reflexivity].
  - now exists "".
Qed.

Lemma rstrip_split s :
  exists post, s = PyStr.rstrip s ++ post /\ PyStr.forallb PyStr.isspace post = true.
Proof.
  induction s as [|c s (post & E & Hp)]; [now exists ""|].
  cbn [PyStr.rstrip]. destruct (PyStr.rstrip s) as [|d t] eqn:Er.
  - cbn [append] in E. subst post.
    destruct (PyStr.isspace c) eqn:Ec.
    + exists (String c s). cbn [append PyStr.forallb]. now rewrite Ec, Hp.
    + exists s. now split.
  - exists post. cbn [append]. split; [now f_equal | assumption].
Qed.

Lemma spells_nonempty w name : name <> "" -> spells w name = true -> w <> "".
Proof. intros Hn H ->. destruct name; [congruence | discriminate H]. Qed.

(** The comparison of line 110 is the comparison of [names_column]. *)
Lemma names_column_lower cell name :
  lower_name name ->
  (names_column cell name <-> PyStr.lower (PyStr.strip cell) = name).
Proof.
  intros [Hne Hn]. split.
  - intros (pre & w & post & -> & Hpre & Hpost & Hw).
    rewrite (strip_padded_word pre w post
               (spells_nonempty w name Hne Hw)
               (spells_no_space w name Hn Hw) Hpre Hpost).
    now apply spells_lower.
  - intros H.
    destruct (lstrip_split cell) as (pre & E1 & Hpre).
    destruct (rstrip_split (PyStr.lstrip cell)) as (post & E2 & Hpost).
    exists pre, (PyStr.strip cell), post. unfold PyStr.strip at 1.
    rewrite <- E2, <- E1. repeat split; try assumption.
    now apply spells_lower.
Qed.

Lemma header_has_mem h name :
  lower_name name ->
  (header_has h name <-> mem name (normalized h) = true).
Proof.
  intros Hn. rewrite mem_In. unfold header_has, normalized.
  rewrite in_map_iff. split.
  - intros (cell & Hin & Hc). exists cell.
    split; [now apply names_column_lower | assumption].
  - intros (cell & Hc & Hin). exists cell.
    split; [assumption | now apply names_column_lower].
Qed.

Lemma header_lacks_mem h name :
  lower_name name ->
  (~ header_has h name <-> mem name (normalized h) = false).
Proof.
  intros Hn. rewrite (header_has_mem h name Hn).
  destruct (mem name (normalized h)); split; congruence.
Qed.

Lemma required_lower : Forall lower_name required.
Proof. repeat constructor; discriminate. Qed.

Ltac header_to_mem :=
  repeat match goal with
  | H : header_has _ _ |- _ =>
      apply header_has_mem in H; [| split; [discriminate | reflexivity]]
  | H : ~ header_has _ _ |- _ =>
      apply header_lacks_mem in H; [| split; [discriminate | reflexivity]]
  end.

Lemma read_csv_rows_undetected sniff content :
  is_empty (PyStr.strip (Csv.read_text content)) = false ->
  (forall d, sniff (Csv.read_text content) = Some d -> d <> "," /\ d <> ";") ->
  read_csv_rows sniff (Some content) = Raise (CliError DelimiterUndetected).
Proof.
  intros Hne Hs. unfold read_csv_rows, detect_delimiter. rewrite Hne.
  destruct (sniff (Csv.read_text content)) as [d|]; [|reflexivity].
  destruct (Hs d eq_refl) as [H1 H2].
  cbn [mem existsb].
  destruct (String.eqb_spec d ","); [congruence|].
  destruct (String.eqb_spec d ";"); [congruence|]. reflexivity.
Qed.

(** C6.  Past the detection of the delimiter, a header row that lacks
    required columns makes the loader raise the missing-columns error, and
    its message is the list of the required names that no name of the
    header spells, in alphabetical order and separated by a comma and a
    space; the names of the header are compared with the case of their
    letters and the whitespace around them set aside.  A file whose
    delimiter is not detected gets the error of the detection instead. *)
Theorem missing_columns_reported :
  (forall sniff content,
      is_empty (PyStr.strip (Csv.read_text content)) = false ->
      (forall d, sniff (Csv.read_text content) = Some d -> d <> "," /\ d <> ";") ->
      read_csv_rows sniff (Some content) = Raise (CliError DelimiterUndetected))
  /\ (forall sniff content d h rest,
         is_empty (PyStr.strip (Csv.read_text content)) = false ->
         sniff (Csv.read_text content) = Some (String d "") ->
         d = ","%char \/ d = ";"%char ->
         Csv.reader d content = Csv.Row h rest ->
         h <> [] ->
         let has := header_has h in
         let fails_naming msg :=
           read_csv_rows sniff (Some content)
           = Raise (CliError (MissingColumns msg)) in
         (has "product" -> has "price" -> ~ has "qty" -> fails_naming "qty")
         /\ (has "product" -> ~ has "price" -> has "qty" -> fails_naming "price")
         /\ (~ has "product" -> has "price" -> has "qty" ->
             fails_naming "product")
         /\ (has "product" -> ~ has "price" -> ~ has "qty" ->
             fails_naming "price, qty")
         /\ (~ has "product" -> has "price" -> ~ has "qty" ->
             fails_naming "product, qty")
         /\ (~ has "product" -> ~ has "price" -> has "qty" ->
             fails_naming "price, product")
         /\ (~ has "product" -> ~ has "price" -> ~ has "qty" ->
             fails_naming "price, product, qty")).
Proof.
  split; [exact read_csv_rows_undetected|].
  intros sniff content d h rest Hne Hs Hd Hr Hh has fails_naming.
  subst has fails_naming. cbv beta.
  assert (Hmem : mem (String d "") [","; ";"] = true)
    by (destruct Hd as [-> | ->]; reflexivity).
  pose proof (read_csv_rows_after_header sniff content d h rest Hne Hs Hmem Hr Hh)
    as Hread.
  unfold missing_columns, required in Hread. cbn [filter] in Hread.
  repeat split; intros H1 H2 H3; header_to_mem;
    rewrite Hread, H1, H2, H3; reflexivity.
Qed.

Lemma missing_columns_reported_witness :
  read_csv_rows undetected (Some one_column_csv)
  = Raise (CliError DelimiterUndetected)
  /\ read_csv_rows (sniffed ",") (Some upper_no_qty_csv)
     = Raise (CliError (MissingColumns "qty"))
  /\ read_csv_rows (sniffed ";") (Some qty_only_csv)
     = Raise (CliError (MissingColumns "price, product")).
Proof.
  split; [|split].
  - apply (proj1 missing_columns_reported undetected one_column_csv);
      [reflexivity | discriminate].
  - refine (proj1 (proj2 missing_columns_reported (sniffed ",") upper_no_qty_csv
                     ","%char ["Product"; " PRICE"]
                     (Csv.Row ["Apple"; "1.50"] Csv.Stop)
                     eq_refl eq_refl (or_introl eq_refl) eq_refl _) _ _ _).
    + discriminate.
    + exists "Product". split; [now left|].
      exists "", "Product", "". now repeat split.
    + exists " PRICE". split; [right; now left|].
      exists " ", "PRICE", "". now repeat split.
    + apply header_lacks_mem; [split; [discriminate | reflexivity] | reflexivity].
  - refine (proj1 (proj2 (proj2 (proj2 (proj2 (proj2
              (proj2 missing_columns_reported (sniffed ";") qty_only_csv
                 ";"%char ["QTY"; "note"] (Csv.Row ["2"; "x"] Csv.Stop)
                 eq_refl eq_refl (or_intror eq_refl) eq_refl _)))))) _ _ _).
    + discriminate.
    + apply header_lacks_mem; [split; [discriminate | reflexivity] | reflexivity].
    + apply header_lacks_mem; [split; [discriminate | reflexivity] | reflexivity].
    + exists "QTY". split; [now left|].
      exists "", "QTY", "". now repeat split.
Defined.

(** Against C6 as it is worded: the comparison in the words of the spec
    differs from the loader's on a header name with a space before it: no name of the header is qty, the
    case aside, yet the check of the columns passes and the loader goes on
    to the rows. *)
Lemma padded_header_passes_column_check :
  Csv.reader "," padded_qty_csv
  = Csv.Row ["product"; "price"; " qty"] (Csv.Row ["Apple"; "1.50"; "2"] Csv.Stop)
  /\ lacks_ci ["product"; "price"; " qty"] "qty"
  /\ read_csv_rows (sniffed ",") (Some padded_qty_csv)
     = Raise (CliError QtyNotSpecified)
  /\ forall msg, read_csv_rows (sniffed ",") (Some padded_qty_csv)
                 <> Raise (CliError (MissingColumns msg)).
Proof.
  split; [reflexivity|]. split; [|split].
  - intros cell [<- | [<- | [<- | []]]]; reflexivity.
  - reflexivity.
  - intros msg H. vm_compute in H. discriminate H.
Qed.

(** ** The loader on files without data *)

Lemma for_rows_no_data h rs items total :
  no_data_rows rs = true -> for_rows h rs items total = Return (items, total).
Proof.
  induction rs as [| r rest IH | e]; cbn [no_data_rows for_rows].
  - reflexivity.
  - destruct r; [exact IH | discriminate].
  - discriminate.
Qed.

Ltac split_match :=
  match goal with
  | |- context [match ?x with _ => _ end] => destruct x eqn:?
  end.

Lemma read_csv_rows_items_nonempty sniff file items total :
  read_csv_rows sniff file = Return (items, total) -> items <> [].
Proof.
  unfold read_csv_rows, bind.
  repeat (split_match; try discriminate).
  intros H. injection H as <- _. discriminate.
Qed.

(** C7.  A loaded receipt has at least one item; and a file with a valid
    header and no data row after it fails with the no-data error. *)
Theorem no_data_error :
  (forall sniff file items total,
      read_csv_rows sniff file = Return (items, total) -> items <> [])
  /\ (forall sniff content d h rest,
         is_empty (PyStr.strip (Csv.read_text content)) = false ->
         sniff (Csv.read_text content) = Some (String d "") ->
         mem (String d "") [","; ";"] = true ->
         Csv.reader d content = Csv.Row h rest ->
         h <> [] ->
         missing_columns (normalized h) = [] ->
         no_data_rows rest = true ->
         read_csv_rows sniff (Some content) = Raise (CliError NoData)).
Proof.
  split.
  - exact read_csv_rows_items_nonempty.
  - intros sniff content d h rest Hne Hs Hd Hr Hh Hm Hn.
    rewrite (read_csv_rows_after_header sniff content d h rest) by assumption.
    rewrite Hm, (for_rows_no_data h rest [] zero_total Hn). reflexivity.
Qed.

Lemma no_data_error_witness :
  [mkItem "Apple" "1.50" 2 "3.00"; mkItem "Bread" "0.99" 3 "2.97"] <> []
  /\ read_csv_rows (sniffed ",") (Some header_only_csv) = Raise (CliError NoData).
Proof.
  split.
  - apply (proj1 no_data_error (sniffed ",") (Some apple_bread) _
             (Decimal.Fin false 597 (-2))).
    vm_compute. reflexivity.
  - apply (proj2 no_data_error (sniffed ",") header_only_csv ","%char
             ["product"; "price"; "qty"] Csv.Stop);
      try reflexivity; discriminate.
Defined.

(** ** Commas and semicolons *)

Section Semicolon.

Local Abbreviation sw := to_semicolon_char.
Local Abbreviation ts := to_semicolon.
Local Abbreviation mp := (map_parser to_semicolon).

Lemma sw_newline c : Csv.is_newline (sw c) = Csv.is_newline c.
Proof. unfold sw. destruct (Ascii.eqb_spec c ","); subst; reflexivity. Qed.

Lemma sw_LF c : Ascii.eqb (sw c) Csv.LF = Ascii.eqb c Csv.LF.
Proof. unfold sw. destruct (Ascii.eqb_spec c ","); subst; reflexivity. Qed.

Lemma sw_CR c : Ascii.eqb (sw c) Csv.CR = Ascii.eqb c Csv.CR.
Proof. unfold sw. destruct (Ascii.eqb_spec c ","); subst; reflexivity. Qed.

Lemma sw_quote c : Ascii.eqb (sw c) Csv.quotechar = Ascii.eqb c Csv.quotechar.
Proof. unfold sw. destruct (Ascii.eqb_spec c ","); subst; reflexivity. Qed.

Lemma sw_space c : PyStr.isspace (sw c) = PyStr.isspace c.
Proof. unfold sw. destruct (Ascii.eqb_spec c ","); subst; reflexivity. Qed.

Lemma sw_delimiter c : c <> ";"%char -> Ascii.eqb (sw c) ";" = Ascii.eqb c ",".
Proof.
  intros H. unfold sw. destruct (Ascii.eqb_spec c ","); [reflexivity|].
  destruct (Ascii.eqb_spec c ";"); congruence.
Qed.

Lemma ts_app s t : ts (s ++ t) = ts s ++ ts t.
Proof. induction s as [|c s IH]; cbn; [reflexivity | now rewrite IH]. Qed.

Lemma ts_length s : String.length (ts s) = String.length s.
Proof. induction s as [|c s IH]; cbn; [reflexivity | now rewrite IH]. Qed.

Lemma ts_is_empty s : is_empty (ts s) = is_empty s.
Proof. destruct s; reflexivity. Qed.

Lemma ts_comma_free s : comma_free s = true -> ts s = s.
Proof.
  unfold comma_free. induction s as [|c s IH]; [reflexivity|].
  cbn [PyStr.contains to_semicolon].
  rewrite negb_orb, andb_true_iff. intros [Hc Hs].
  rewrite (IH Hs). unfold to_semicolon_char. rewrite Ascii.eqb_sym.
  apply negb_true_iff in Hc. now rewrite Hc.
Qed.

Lemma ts_lstrip s : PyStr.lstrip (ts s) = ts (PyStr.lstrip s).
Proof.
  induction s as [|c s IH]; cbn; [reflexivity|].
  rewrite sw_space. destruct (PyStr.isspace c); [exact IH | reflexivity].
Qed.

Lemma ts_rstrip s : PyStr.rstrip (ts s) = ts (PyStr.rstrip s).
Proof.
  induction s as [|c s IH]; cbn; [reflexivity|].
  rewrite IH, sw_space.
  destruct (PyStr.rstrip s); cbn; [destruct (PyStr.isspace c)|]; reflexivity.
Qed.

Lemma ts_strip s : PyStr.strip (ts s) = ts (PyStr.strip s).
Proof. unfold PyStr.strip. now rewrite ts_lstrip, ts_rstrip. Qed.

Lemma read_text_cons c s :
  Csv.read_text (String c s)
  = if Ascii.eqb c Csv.CR then
      match s with
      | String c' s'' =>
          if Ascii.eqb c' Csv.LF then String Csv.LF (Csv.read_text s'')
          else String Csv.LF (Csv.read_text s)
      | EmptyString => String Csv.LF ""
      end
    else String c (Csv.read_text s).
Proof. reflexivity. Qed.

Lemma file_lines_cons cur c s :
  Csv.file_lines cur (String c s)
  = if Ascii.eqb c Csv.LF then (cur ++ String Csv.LF "") :: Csv.file_lines "" s
    else if Ascii.eqb c Csv.CR then
      match s with
      | String c' s'' =>
          if Ascii.eqb c' Csv.LF
          then (cur ++ String Csv.CR (String Csv.LF "")) :: Csv.file_lines "" s''
          else (cur ++ String Csv.CR "") :: Csv.file_lines "" s
      | EmptyString => [cur ++ String Csv.CR ""]
      end
    else Csv.file_lines (cur ++ String c "") s.
Proof. reflexivity. Qed.

Lemma ts_cons c s : ts (String c s) = String (sw c) (ts s).
Proof. reflexivity. Qed.

Lemma ts_read_text_step s :
  Csv.read_text (ts s) = ts (Csv.read_text s)
  /\ forall c, Csv.read_text (ts (String c s)) = ts (Csv.read_text (String c s)).
Proof.
  induction s as [|c' s' [IH1 IH2]].
  - split; [reflexivity|]. intros c.
    rewrite ts_cons, !read_text_cons, sw_CR.
    destruct (Ascii.eqb c Csv.CR); reflexivity.
  - split; [apply IH2|]. intros c.
    rewrite (ts_cons c), (read_text_cons (sw c)), (read_text_cons c), sw_CR.
    destruct (Ascii.eqb c Csv.CR).
    + rewrite (ts_cons c'). cbv beta iota. rewrite sw_LF.
      destruct (Ascii.eqb c' Csv.LF);
        rewrite (ts_cons Csv.LF (Csv.read_text _)); f_equal.
      * exact IH1.
      * rewrite <- (ts_cons c'). apply IH2.
    + rewrite (ts_cons c (Csv.read_text _)). f_equal. apply IH2.
Qed.

Lemma ts_read_text s : Csv.read_text (ts s) = ts (Csv.read_text s).
Proof. apply ts_read_text_step. Qed.

Lemma ts_file_lines_step s :
  (forall cur, Csv.file_lines (ts cur) (ts s) = map ts (Csv.file_lines cur s))
  /\ forall c cur,
      Csv.file_lines (ts cur) (ts (String c s))
      = map ts (Csv.file_lines cur (String c s)).
Proof.
  induction s as [|c' s' [IH1 IH2]].
  - assert (H0 : forall cur,
               Csv.file_lines (ts cur) (ts "") = map ts (Csv.file_lines cur "")).
    { intros cur. cbn. destruct cur; reflexivity. }
    split; [exact H0|]. intros c cur.
    rewrite ts_cons, !file_lines_cons, sw_LF, sw_CR.
    destruct (Ascii.eqb c Csv.LF).
    + cbn [map]. rewrite ts_app. reflexivity.
    + destruct (Ascii.eqb c Csv.CR).
      * cbn [to_semicolon map]. rewrite ts_app. reflexivity.
      * rewrite <- (H0 (cur ++ String c "")), ts_app. reflexivity.
  - split; [intros cur; apply IH2|]. intros c cur.
    rewrite (ts_cons c), (file_lines_cons _ (sw c)), (file_lines_cons _ c).
    rewrite sw_LF, sw_CR.
    destruct (Ascii.eqb c Csv.LF).
    + cbn [map]. rewrite ts_app. f_equal. apply (IH2 c' "").
    + destruct (Ascii.eqb c Csv.CR).
      * rewrite (ts_cons c'). cbv beta iota. rewrite sw_LF.
        destruct (Ascii.eqb c' Csv.LF); cbn [map]; rewrite ts_app; f_equal.
        { apply (IH1 ""). }
        { rewrite <- (ts_cons c'). apply (IH2 c' ""). }
      * rewrite <- (IH2 c' (cur ++ String c "")), ts_app. reflexivity.
Qed.

Lemma ts_file_lines cur s :
  Csv.file_lines (ts cur) (ts s) = map ts (Csv.file_lines cur s).
Proof. apply ts_file_lines_step. Qed.

Lemma mp_save p s :
  Csv.parse_save_field (mp p) s = mp (Csv.parse_save_field p s).
Proof.
  unfold Csv.parse_save_field, map_parser. cbn [Csv.st Csv.fields Csv.field].
  rewrite map_app. reflexivity.
Qed.

Lemma mp_set p s : Csv.set_state (mp p) s = mp (Csv.set_state p s).
Proof. reflexivity. Qed.

Lemma mp_add p s c :
  Csv.parse_add_char (mp p) s (sw c) = map_outcome mp (Csv.parse_add_char p s c).
Proof.
  unfold Csv.parse_add_char, map_parser. cbn [Csv.st Csv.fields Csv.field].
  rewrite ts_length.
  destruct (Csv.field_limit <=? N.of_nat (String.length (Csv.field p)))%N;
    cbn [map_outcome Csv.st Csv.fields Csv.field]; [reflexivity|].
  rewrite ts_app. reflexivity.
Qed.

Lemma process_char_semicolon p c :
  c <> ";"%char ->
  Csv.parse_process_char ";" (mp p) (Some (sw c))
  = map_outcome mp (Csv.parse_process_char "," p (Some c)).
Proof.
  intros Hc. unfold Csv.parse_process_char.
  change (Csv.st (mp p)) with (Csv.st p).
  rewrite sw_newline, sw_quote, (sw_delimiter c Hc), !mp_save, !mp_set, !mp_add.
  destruct (Csv.st p), (Csv.is_newline c), (Ascii.eqb c Csv.quotechar),
    (Ascii.eqb c ","); reflexivity.
Qed.

Lemma process_eol_semicolon p :
  Csv.parse_process_char ";" (mp p) None
  = map_outcome mp (Csv.parse_process_char "," p None).
Proof.
  unfold Csv.parse_process_char. change (Csv.st (mp p)) with (Csv.st p).
  rewrite !mp_save, !mp_set. destruct (Csv.st p); reflexivity.
Qed.

Lemma feed_semicolon line : forall p,
  PyStr.contains ";" line = false ->
  Csv.feed ";" (mp p) (ts line) = map_outcome mp (Csv.feed "," p line).
Proof.
  induction line as [|c line IH]; intros p H; [reflexivity|].
  cbn [PyStr.contains] in H. apply orb_false_iff in H. destruct H as [Hc Hl].
  cbn [to_semicolon Csv.feed]. rewrite process_char_semicolon.
  - destruct (Csv.parse_process_char "," p (Some c)) as [p'|e]; cbn [map_outcome bind].
    + apply IH, Hl.
    + reflexivity.
  - intros ->. discriminate.
Qed.

Lemma read_records_semicolon lines : forall p,
  Forall (fun l => PyStr.contains ";" l = false) lines ->
  Csv.read_records ";" (mp p) (map ts lines)
  = map_rows ts (Csv.read_records "," p lines).
Proof.
  induction lines as [|l lines IH]; intros p H.
  - cbn [map Csv.read_records]. change (Csv.st (mp p)) with (Csv.st p).
    change (Csv.field (mp p)) with (ts (Csv.field p)). rewrite mp_save.
    destruct (Csv.st p), (Csv.field p); reflexivity.
  - inversion H as [|? ? Hl Hls]; subst.
    cbn [map Csv.read_records]. rewrite (feed_semicolon l p Hl).
    destruct (Csv.feed "," p l) as [p1|e]; cbn [map_outcome bind]; [|reflexivity].
    rewrite process_eol_semicolon.
    destruct (Csv.parse_process_char "," p1 None) as [p2|e];
      cbn [map_outcome]; [|reflexivity].
    change (Csv.st (mp p2)) with (Csv.st p2).
    destruct (Csv.st p2); cbn [map_rows];
      try (apply IH; assumption).
    f_equal. apply (IH Csv.parse_reset Hls).
Qed.

Lemma contains_app c s t :
  PyStr.contains c (s ++ t) = PyStr.contains c s || PyStr.contains c t.
Proof.
  induction s as [|d s IH]; cbn [append PyStr.contains]; [reflexivity|].
  rewrite IH. apply orb_assoc.
Qed.

Lemma file_lines_free_step a s :
  (forall cur, PyStr.contains a cur = false -> PyStr.contains a s = false ->
     Forall (fun l => PyStr.contains a l = false) (Csv.file_lines cur s))
  /\ forall c cur,
      PyStr.contains a cur = false -> PyStr.contains a (String c s) = false ->
      Forall (fun l => PyStr.contains a l = false) (Csv.file_lines cur (String c s)).
Proof.
  assert (Hcons : forall cur t, PyStr.contains a cur = false ->
                    PyStr.contains a t = false -> PyStr.contains a (cur ++ t) = false).
  { intros cur t H1 H2. now rewrite contains_app, H1, H2. }
  induction s as [|c' s' [IH1 IH2]].
  - assert (H0 : forall cur, PyStr.contains a cur = false ->
               Forall (fun l => PyStr.contains a l = false) (Csv.file_lines cur "")).
    { intros cur Hc. cbn. destruct cur; repeat constructor; assumption. }
    split; [intros; now apply H0|]. intros c cur Hc Hs.
    cbn [PyStr.contains] in Hs. apply orb_false_iff in Hs. destruct Hs as [Ha _].
    rewrite file_lines_cons.
    assert (Hone : PyStr.contains a (String c "") = false)
      by (cbn [PyStr.contains]; now rewrite Ha).
    destruct (Ascii.eqb_spec c Csv.LF) as [->|]; [repeat constructor; auto|].
    destruct (Ascii.eqb_spec c Csv.CR) as [->|]; [repeat constructor; auto|].
    apply H0. auto.
  - split; [intros cur Hc Hs; now apply IH2|]. intros c cur Hc Hs.
    pose proof Hs as Hs0.
    cbn [PyStr.contains] in Hs. apply orb_false_iff in Hs. destruct Hs as [Ha Hs].
    pose proof Hs as Hs1.
    cbn [PyStr.contains] in Hs. apply orb_false_iff in Hs. destruct Hs as [Ha' Hs].
    assert (Hone : PyStr.contains a (String c "") = false)
      by (cbn [PyStr.contains]; now rewrite Ha).
    rewrite file_lines_cons.
    destruct (Ascii.eqb_spec c Csv.LF) as [->|].
    { constructor; [auto | now apply IH2]. }
    destruct (Ascii.eqb_spec c Csv.CR) as [->|].
    { destruct (Ascii.eqb_spec c' Csv.LF) as [->|]; constructor.
      - apply Hcons; [assumption|]. cbn [PyStr.contains]. now rewrite Ha, Ha'.
      - now apply IH1.
      - auto.
      - now apply IH2. }
    apply IH2; auto.
Qed.

Lemma reader_semicolon content :
  PyStr.contains ";" content = false ->
  Csv.reader ";" (ts content) = map_rows ts (Csv.reader "," content).
Proof.
  intros H. unfold Csv.reader.
  change (Csv.file_lines "" (ts content))
    with (Csv.file_lines (ts "") (ts content)).
  rewrite (ts_file_lines "" content).
  apply (read_records_semicolon _ Csv.parse_reset).
  now apply file_lines_free_step.
Qed.

Lemma map_rows_comma_free rs :
  rows_forallb comma_free rs = true -> map_rows ts rs = rs.
Proof.
  induction rs as [| r rest IH | e]; cbn [rows_forallb map_rows]; try reflexivity.
  rewrite andb_true_iff. intros [Hr Hrest]. rewrite (IH Hrest). f_equal.
  induction r as [|f r IHr]; [reflexivity|].
  cbn [List.forallb] in Hr. apply andb_true_iff in Hr. destruct Hr as [Hf Hr].
  cbn [map]. now rewrite (ts_comma_free f Hf), (IHr Hr).
Qed.

End Semicolon.
(** C8.  A comma-separated file without semicolons, whose fields hold no
    comma, loads to the same outcome once its commas are replaced by
    semicolons, the detector reporting the delimiter of each text; the
    two-row example gives its two items and the total 5.97 both ways. *)
Theorem delimiter_invariance :
  (forall sniff content,
      PyStr.contains ";" content = false ->
      rows_forallb comma_free (Csv.reader "," content) = true ->
      sniff (Csv.read_text content) = Some "," ->
      sniff (Csv.read_text (to_semicolon content)) = Some ";" ->
      read_csv_rows sniff (Some (to_semicolon content))
      = read_csv_rows sniff (Some content))
  /\ to_semicolon apple_bread = semicolon_csv
  /\ (forall sniff,
         sniff apple_bread = Some "," ->
         sniff semicolon_csv = Some ";" ->
         read_csv_rows sniff (Some apple_bread)
         = Return ([mkItem "Apple" "1.50" 2 "3.00"; mkItem "Bread" "0.99" 3 "2.97"],
                   Decimal.Fin false 597 (-2))
         /\ read_csv_rows sniff (Some semicolon_csv)
            = read_csv_rows sniff (Some apple_bread)).
Proof.
  split; [| split; [reflexivity|]].
  - intros sniff content Hfree Hfields Hs Hs'.
    unfold read_csv_rows, detect_delimiter.
    rewrite Hs, Hs'.
    change (mem ";" [","; ";"]) with true. change (mem "," [","; ";"]) with true.
    cbn [bind].
    rewrite ts_read_text, ts_strip, ts_is_empty.
    rewrite (reader_semicolon content Hfree), (map_rows_comma_free _ Hfields).
    reflexivity.
  - intros sniff Hs Hs'.
    unfold read_csv_rows, detect_delimiter.
    replace (Csv.read_text apple_bread) with apple_bread by reflexivity.
    replace (Csv.read_text semicolon_csv) with semicolon_csv by reflexivity.
    rewrite Hs, Hs'. split; vm_compute; reflexivity.
Qed.

Lemma delimiter_invariance_witness :
  read_csv_rows first_delimiter (Some (to_semicolon apple_bread))
  = read_csv_rows first_delimiter (Some apple_bread)
  /\ read_csv_rows first_delimiter (Some semicolon_csv)
     = read_csv_rows first_delimiter (Some apple_bread).
Proof.
  split.
  - apply (proj1 delimiter_invariance first_delimiter apple_bread); reflexivity.
  - apply (proj2 (proj2 delimiter_invariance) first_delimiter); reflexivity.
Defined.
(** ** Digits and powers of ten *)

Section Digits.

Import Decimal.

Lemma pow10_Z k : 0 <= k -> Z.of_N (pow10 k) = 10 ^ k.
Proof.
  intros Hk. unfold pow10. rewrite N2Z.inj_pow, Z2N.id by assumption. reflexivity.
Qed.

Lemma pow10_pos k : (0 < pow10 k)%N.
Proof.
  unfold pow10. apply N.neq_0_lt_0, N.pow_nonzero. discriminate.
Qed.

Lemma pow_pos k : 0 <= k -> 0 < 10 ^ k.
Proof. intros. apply Z.pow_pos_nonneg; lia. Qed.

Lemma pow_succ k : 0 <= k -> 10 ^ (k + 1) = 10 * 10 ^ k.
Proof. intros. rewrite Z.pow_add_r by lia. lia. Qed.

Lemma pow_le j k : 0 <= j <= k -> 10 ^ j <= 10 ^ k.
Proof. intros. apply Z.pow_le_mono_r; lia. Qed.

Lemma ndigits_fuel_spec fuel : forall n,
  (n < 2 ^ N.of_nat fuel)%N ->
  1 <= ndigits_fuel fuel n
  /\ Z.of_N n < 10 ^ ndigits_fuel fuel n
  /\ (n <> 0%N -> 10 ^ (ndigits_fuel fuel n - 1) <= Z.of_N n).
Proof.
  induction fuel as [|fuel IH]; intros n Hn.
  - cbn in Hn. assert (n = 0%N) by lia. subst. cbn. repeat split; lia.
  - cbn [ndigits_fuel]. destruct (N.ltb_spec n 10) as [Hlt|Hge].
    + change (10 ^ 1) with 10. change (10 ^ (1 - 1)) with 1.
      repeat split; lia.
    + assert (Hdiv : (n / 10 < 2 ^ N.of_nat fuel)%N).
      { rewrite Nat2N.inj_succ, N.pow_succ_r' in Hn.
        apply N.Div0.div_lt_upper_bound. lia. }
      destruct (IH _ Hdiv) as (H1 & H2 & H3).
      set (k := ndigits_fuel fuel (n / 10)) in *.
      assert (Hq : (n / 10 <> 0)%N).
      { intros H0. apply N.div_small_iff in H0; lia. }
      specialize (H3 Hq).
      pose proof (N.div_mod n 10 ltac:(lia)) as Hdm.
      pose proof (N.mod_lt n 10 ltac:(lia)) as Hm.
      rewrite N2Z.inj_div in H2, H3. change (Z.of_N 10) with 10 in *.
      assert (Hz : Z.of_N n = 10 * (Z.of_N n / 10) + Z.of_N n mod 10)
        by (apply Z.div_mod; lia).
      pose proof (Z.mod_pos_bound (Z.of_N n) 10 ltac:(lia)) as Hzm.
      replace (1 + k - 1) with ((k - 1) + 1) by lia.
      rewrite (Z.add_comm 1 k), !pow_succ by lia.
      repeat split; lia.
Qed.

Lemma ndigits_spec n :
  1 <= ndigits n
  /\ Z.of_N n < 10 ^ ndigits n
  /\ (n <> 0%N -> 10 ^ (ndigits n - 1) <= Z.of_N n).
Proof.
  unfold ndigits. apply ndigits_fuel_spec.
  rewrite N2Nat.id. apply N.size_gt.
Qed.

Lemma ndigits_unique n k :
  1 <= k -> 10 ^ (k - 1) <= Z.of_N n < 10 ^ k -> ndigits n = k.
Proof.
  intros Hk [Hlo Hhi].
  destruct (ndigits_spec n) as (H1 & H2 & H3).
  assert (Hn : n <> 0%N).
  { intros ->. pose proof (pow_pos (k - 1)). cbn in Hlo. lia. }
  specialize (H3 Hn).
  destruct (Z.lt_trichotomy (ndigits n) k) as [Hlt | [Heq | Hgt]]; [|assumption|].
  - pose proof (pow_le (ndigits n) (k - 1)). lia.
  - pose proof (pow_le k (ndigits n - 1)). lia.
Qed.

Lemma ndigits_mul_pow10 n k :
  n <> 0%N -> 0 <= k -> ndigits (n * pow10 k) = ndigits n + k.
Proof.
  intros Hn Hk. destruct (ndigits_spec n) as (H1 & H2 & H3). specialize (H3 Hn).
  apply ndigits_unique; [lia|].
  rewrite N2Z.inj_mul, pow10_Z by assumption.
  replace (ndigits n + k - 1) with ((ndigits n - 1) + k) by lia.
  rewrite !Z.pow_add_r by lia. pose proof (pow_pos k Hk). nia.
Qed.

Lemma ndigits_mono a b :
  a <> 0%N -> (a <= b)%N -> ndigits a <= ndigits b.
Proof.
  intros Ha Hab.
  destruct (ndigits_spec a) as (A1 & A2 & A3). specialize (A3 Ha).
  destruct (ndigits_spec b) as (B1 & B2 & B3).
  destruct (Z.le_gt_cases (ndigits a) (ndigits b)) as [|Hgt]; [assumption|].
  pose proof (pow_le (ndigits b) (ndigits a - 1)). lia.
Qed.

End Digits.

(** ** What the price parser returns *)

Section PriceShape.

Import Decimal.

Lemma context_bounds :
  Etiny = -1000026 /\ Etop = 999972 /\ Emax = 999999 /\ prec = 28.
Proof. repeat split. Qed.

(** [_fix] leaves a number of two places and at most [prec] digits as it
    is. *)
Lemma fix_two_places s c :
  ndigits c <= prec -> _fix (Fin s c (-2)) = Return (Fin s c (-2)).
Proof.
  intros Hn. destruct context_bounds as (E1 & E2 & E3 & E4).
  pose proof (ndigits_spec c) as [H1 _].
  unfold _fix. destruct (N.eqb_spec c 0) as [->|_]; [reflexivity|].
  destruct (Z.gtb_spec (ndigits c + -2 - prec) Etop); [lia|].
  destruct (Z.ltb_spec (-2) (Z.max (ndigits c + -2 - prec) Etiny)); [lia|].
  reflexivity.
Qed.

(** What [quantize] to two places returns, when it returns. *)
Lemma quantize_cent_shape s c e r d :
  quantize (Fin s c e) cent r = Return d ->
  exists c', d = Fin s c' (-2) /\ ndigits c' <= prec /\ (c = 0%N -> c' = 0%N).
Proof.
  unfold quantize, cent. cbn [_check_nans].
  change (negb ((Etiny <=? -2) && (-2 <=? Emax))) with false. cbv iota.
  destruct (N.eqb_spec c 0) as [->|Hc].
  - rewrite fix_two_places by (change (ndigits 0) with 1; unfold prec; lia).
    intros H. injection H as <-. exists 0%N. repeat split.
    change (ndigits 0) with 1. unfold prec. lia.
  - destruct (adjusted c e >? Emax); [discriminate|].
    destruct (adjusted c e - -2 + 1 >? prec); [discriminate|].
    unfold _rescale. destruct (N.eqb_spec c 0) as [|_]; [contradiction|].
    destruct (-2 <=? e);
      match goal with
      | |- context [Fin s ?x (-2)] => set (c' := x)
      end;
      (destruct (adjusted c' (-2) >? Emax); [discriminate|]);
      (destruct (Z.gtb_spec (ndigits c') prec); [discriminate|]);
      rewrite fix_two_places by assumption;
      intros Hd; injection Hd as <-; exists c'; repeat split; try assumption;
      intros; contradiction.
Qed.

Lemma quantize_cent_raise s c e r x :
  quantize (Fin s c e) cent r = Raise x -> x = InvalidOperation.
Proof.
  unfold quantize, cent. cbn [_check_nans].
  change (negb ((Etiny <=? -2) && (-2 <=? Emax))) with false. cbv iota.
  destruct (N.eqb_spec c 0) as [->|Hc].
  - rewrite fix_two_places by (change (ndigits 0) with 1; unfold prec; lia).
    discriminate.
  - destruct (adjusted c e >? Emax); [congruence|].
    destruct (adjusted c e - -2 + 1 >? prec); [congruence|].
    unfold _rescale. destruct (N.eqb_spec c 0) as [|_]; [contradiction|].
    destruct (-2 <=? e);
      match goal with
      | |- context [Fin s ?y (-2)] => set (c' := y)
      end;
      (destruct (adjusted c' (-2) >? Emax); [congruence|]);
      (destruct (Z.gtb_spec (ndigits c') prec); [congruence|]);
      rewrite fix_two_places by assumption; discriminate.
Qed.

Lemma of_string_raise text x :
  of_string text = Raise x -> x = InvalidOperation.
Proof.
  unfold of_string.
  repeat match goal with
         | |- context [match ?y with _ => _ end] => destruct y
         end; congruence.
Qed.

Lemma parse_price_shape raw :
  match parse_price raw with
  | Return d =>
      exists s c, d = Fin s c (-2) /\ ndigits c <= prec /\ (s = true -> c = 0%N)
  | Raise e => is_FormatError e = true \/ e = InvalidOperation
  end.
Proof.
  unfold parse_price.
  destruct (is_empty (PyStr.strip (or_empty raw))); [now left|].
  destruct (PyStr.contains "," (PyStr.strip (or_empty raw))
            && negb (PyStr.contains "." (PyStr.strip (or_empty raw))));
    [now left|].
  destruct (of_string (PyStr.strip (or_empty raw))) as [v|x] eqn:Ev.
  - destruct v as [s c e | s | s sg p]; cbn [lt_zero bind].
    + destruct (s && negb (c =? 0)%N) eqn:Eneg; [now left|].
      destruct (quantize (Fin s c e) cent ROUND_HALF_UP) as [d|x] eqn:Eq.
      * destruct (quantize_cent_shape _ _ _ _ _ Eq) as (c' & -> & Hn & Hz).
        exists s, c'. repeat split; [assumption|].
        intros ->. apply Hz. cbn in Eneg. apply negb_false_iff in Eneg.
        now apply N.eqb_eq.
      * right. eapply quantize_cent_raise, Eq.
    + destruct s; [now left | now right].
    + now right.
  - apply of_string_raise in Ev. subst x. now left.
Qed.

(** X1.  The price parser ends in one of three ways: a format error of the
    domain, the uncaught decimal.InvalidOperation, or a price: finite, with
    exactly two places, at most 28 digits and not below zero. *)
Theorem parse_price_outcomes raw :
  match parse_price raw with
  | Return d =>
      exists s c, d = Fin s c (-2) /\ ndigits c <= prec /\ (s = true -> c = 0%N)
  | Raise e => is_FormatError e = true \/ e = InvalidOperation
  end.
Proof. exact (parse_price_shape raw). Qed.

End PriceShape.

(** ** What the quantity parser returns *)

Lemma isdigit_char_not_sign c :
  PyStr.isdigit_char c = true -> c <> "-"%char /\ c <> "+"%char.
Proof. split; intros ->; discriminate. Qed.

Lemma strip_head c s :
  PyStr.isspace c = false -> exists t, PyStr.strip (String c s) = String c t.
Proof.
  intros Hc. unfold PyStr.strip. cbn [PyStr.lstrip]. rewrite Hc.
  cbn [PyStr.rstrip]. rewrite Hc.
  destruct (PyStr.rstrip s); eexists; reflexivity.
Qed.

Lemma isdigit_char_not_space c :
  PyStr.isdigit_char c = true -> PyStr.isspace c = false.
Proof.
  destruct c as [[] [] [] [] [] [] [] []]; intros H; try reflexivity; discriminate.
Qed.

Lemma parse_qty_shape raw :
  match parse_qty raw with
  | Return n => 0 <= n
  | Raise e => is_FormatError e = true \/ e = ValueError
  end.
Proof.
  unfold parse_qty.
  destruct (PyStr.strip (or_empty raw)) as [|c t] eqn:Et; [now left|].
  cbn [is_empty]. destruct (PyStr.isdigit (String c t)) eqn:Ed; [|now left].
  cbn [negb].
  assert (Hc : PyStr.isdigit_char c = true).
  { cbn [PyStr.isdigit PyStr.forallb] in Ed. now apply andb_true_iff in Ed. }
  destruct (isdigit_char_not_sign c Hc) as [H1 H2].
  destruct (strip_head c t (isdigit_char_not_space c Hc)) as [t' Ht'].
  unfold PyStr.int. rewrite Ht'.
  assert (E : (let (neg, body) :=
                 match String c t' with
                 | String "-" r => (true, r)
                 | String "+" r => (false, r)
                 | _ => (false, String c t')
                 end in
               match PyStr.int_body 0 false body with
               | Some n => Return (if neg then - Z.of_N n else Z.of_N n)
               | None => Raise ValueError
               end)
              = match PyStr.int_body 0 false (String c t') with
                | Some n => Return (Z.of_N n)
                | None => Raise ValueError
                end).
  { destruct c as [[] [] [] [] [] [] [] []]; try reflexivity; congruence. }
  rewrite E. destruct (PyStr.int_body 0 false (String c t')); [lia | now right].
Qed.

(** X2.  The quantity parser ends in one of three ways: a format error of the
    domain, the uncaught ValueError, or an integer that is not negative. *)
Theorem parse_qty_outcomes raw :
  match parse_qty raw with
  | Return n => 0 <= n
  | Raise e => is_FormatError e = true \/ e = ValueError
  end.
Proof. exact (parse_qty_shape raw). Qed.


Lemma isdecimal_not_space c : PyStr.isdecimal c = true -> PyStr.isspace c = false.
Proof.
  destruct c as [[] [] [] [] [] [] [] []]; intros H; try reflexivity; discriminate.
Qed.

Lemma rstrip_digits s :
  PyStr.forallb PyStr.isdecimal s = true -> PyStr.rstrip s = s.
Proof.
  induction s as [|c s IH]; [reflexivity|].
  cbn [PyStr.forallb PyStr.rstrip]. rewrite andb_true_iff. intros [Hc Hs].
  rewrite (IH Hs), (isdecimal_not_space c Hc). destruct s; reflexivity.
Qed.

Lemma strip_digits s :
  PyStr.forallb PyStr.isdecimal s = true -> PyStr.strip s = s.
Proof.
  intros H. unfold PyStr.strip.
  replace (PyStr.lstrip s) with s; [now apply rstrip_digits|].
  destruct s as [|c s]; [reflexivity|].
  cbn [PyStr.forallb] in H. apply andb_true_iff in H. destruct H as [Hc _].
  cbn [PyStr.lstrip]. now rewrite (isdecimal_not_space c Hc).
Qed.

Lemma int_body_digits s : forall acc b,
  PyStr.forallb PyStr.isdecimal s = true ->
  (s = "" -> b = true) ->
  PyStr.int_body acc b s = Some (PyStr.digits_value acc s).
Proof.
  induction s as [|c s IH]; intros acc b H Hb.
  - cbn. now rewrite Hb.
  - cbn [PyStr.forallb] in H. apply andb_true_iff in H. destruct H as [Hc Hs].
    cbn [PyStr.int_body PyStr.digits_value]. rewrite Hc.
    apply IH; [assumption | reflexivity].
Qed.

(** X3.  On a text of decimal digits the quantity parser returns the number
    the digits write, leading zeros included.  The text is taken within
    the 4300 digits that the interpreter's default limit on integer strings
    lets through, so that the statement holds with the limit on or off. *)
Theorem parse_qty_digits text :
  text <> "" ->
  (String.length text <= 4300)%nat ->
  PyStr.forallb PyStr.isdecimal text = true ->
  parse_qty (Some text) = Return (Z.of_N (PyStr.digits_value 0 text)).
Proof.
  intros Hne _ Hd. unfold parse_qty. cbn [or_empty].
  rewrite (strip_digits text Hd).
  destruct text as [|c t]; [congruence|]. cbn [is_empty].
  assert (Hdig : PyStr.isdigit (String c t) = true).
  { cbn [PyStr.isdigit]. revert Hd. generalize (String c t). intros s.
    induction s as [|d s IH]; [reflexivity|].
    cbn [PyStr.forallb]. rewrite !andb_true_iff. intros [H1 H2].
    split; [|now apply IH]. unfold PyStr.isdigit_char. now rewrite H1. }
  rewrite Hdig. cbn [negb].
  unfold PyStr.int. rewrite (strip_digits _ Hd).
  pose proof (int_body_digits (String c t) 0 false Hd ltac:(discriminate)) as Hb.
  cbn [PyStr.forallb] in Hd. apply andb_true_iff in Hd. destruct Hd as [Hc _].
  destruct c as [[] [] [] [] [] [] [] []]; try discriminate Hc;
    cbv beta iota; rewrite Hb; reflexivity.
Qed.

Lemma parse_qty_digits_witness :
  parse_qty (Some "0012") = Return (Z.of_N (PyStr.digits_value 0 "0012")).
Proof.
  apply parse_qty_digits; [discriminate | cbn [String.length]; lia | reflexivity].
Defined.

(** ** Rows shorter than the header *)

Lemma dict_find_set k k' v d :
  Csv.dict_find k (Csv.dict_set k' v d)
  = if String.eqb k k' then Some v else Csv.dict_find k d.
Proof.
  induction d as [|[k0 v0] d IH]; cbn [Csv.dict_set Csv.dict_find].
  - destruct (String.eqb_spec k k'); reflexivity.
  - destruct (String.eqb_spec k' k0) as [->|Hne]; cbn [Csv.dict_find].
    + destruct (String.eqb_spec k k0); reflexivity.
    + destruct (String.eqb_spec k k0) as [->|].
      * destruct (String.eqb_spec k0 k'); [congruence | reflexivity].
      * exact IH.
Qed.

Lemma make_row_no_cells ks : forall acc k,
  Csv.dict_find k (Csv.make_row acc ks [])
  = if mem k ks then Some None else Csv.dict_find k acc.
Proof.
  induction ks as [|k0 ks IH]; intros acc k; [reflexivity|].
  cbn [Csv.make_row]. rewrite IH, dict_find_set.
  unfold mem. cbn [existsb]. fold (mem k ks).
  destruct (mem k ks); [now rewrite orb_true_r|].
  rewrite orb_false_r. reflexivity.
Qed.

(** A key of the header beyond the cells of the row is set to [None]. *)
Lemma make_row_missing_cell k ks : forall row acc,
  In k (skipn (List.length row) ks) ->
  Csv.dict_find k (Csv.make_row acc ks row) = Some None.
Proof.
  induction ks as [|k0 ks IH]; intros row acc H.
  - rewrite skipn_nil in H. contradiction.
  - destruct row as [|v row].
    + cbn [List.length skipn] in H. apply mem_In in H.
      rewrite make_row_no_cells, H. reflexivity.
    + cbn [List.length skipn] in H. cbn [Csv.make_row]. now apply IH.
Qed.

(** X4.  A data row that ends before a required column raises the domain
    error of that column: the empty-product error before the product
    column; the price-not-specified error before the price column, the
    product being there; the quantity-not-specified error before the qty
    column, the product being there and the price valid. *)
Theorem short_row_errors fieldnames row items total :
  let d := Csv.make_row [] fieldnames row in
  let absent name := In name (skipn (List.length row) fieldnames) in
  (absent "product" -> process_row d items total = Raise (CliError EmptyProduct))
  /\ (absent "price" -> is_empty (product_of fieldnames row) = false ->
      process_row d items total = Raise (CliError PriceNotSpecified))
  /\ (absent "qty" -> is_empty (product_of fieldnames row) = false ->
      forall p, parse_price (Csv.get d "price" (Some "")) = Return p ->
      process_row d items total = Raise (CliError QtyNotSpecified)).
Proof.
  intros d absent. unfold absent, product_of. fold d.
  repeat split.
  - intros H. unfold process_row, Csv.get.
    unfold d. rewrite (make_row_missing_cell _ _ _ _ H). reflexivity.
  - intros H Hp. unfold process_row. rewrite Hp.
    unfold Csv.get at 1. unfold d at 1.
    rewrite (make_row_missing_cell _ _ _ _ H). reflexivity.
  - intros H Hp p Hprice. unfold process_row. rewrite Hp, Hprice.
    cbn [bind]. unfold Csv.get at 1. unfold d at 1.
    rewrite (make_row_missing_cell _ _ _ _ H). reflexivity.
Qed.

Lemma short_row_errors_witness :
  process_row (Csv.make_row [] ["product"; "price"; "qty"] ["Pear"]) [] zero_total
  = Raise (CliError PriceNotSpecified)
  /\ process_row (Csv.make_row [] ["product"; "price"; "qty"] ["Pear"; "1.00"])
       [] zero_total
     = Raise (CliError QtyNotSpecified).
Proof.
  split.
  - apply (proj1 (proj2 (short_row_errors ["product"; "price"; "qty"] ["Pear"]
                            [] zero_total))).
    + cbn. tauto.
    + reflexivity.
  - apply (proj2 (proj2 (short_row_errors ["product"; "price"; "qty"]
                            ["Pear"; "1.00"] [] zero_total))
             ltac:(cbn; tauto) ltac:(reflexivity)
             (Decimal.Fin false 100 (-2))).
    reflexivity.
Defined.
(** ** One row of the loop *)

(** What a row that the loop accepts went through. *)
Lemma process_row_inv row items total items' total' :
  process_row row items total = Return (items', total') ->
  exists p q exact lt,
    is_empty (PyStr.strip (or_empty (Csv.get row "product" None))) = false
    /\ parse_price (Csv.get row "price" (Some "")) = Return p
    /\ parse_qty (Csv.get row "qty" (Some "")) = Return q
    /\ Decimal.mul p (Decimal.of_int q) = Return exact
    /\ Decimal.quantize exact cent Decimal.ROUND_HALF_UP = Return lt
    /\ Decimal.add total lt = Return total'
    /\ items' = (items ++ [mkItem (PyStr.strip (or_empty (Csv.get row "product" None)))
                                  (Decimal.format_2f p) q (Decimal.format_2f lt)])%list.
Proof.
  unfold process_row.
  destruct (is_empty (PyStr.strip (or_empty (Csv.get row "product" None))))
    eqn:Eprod; [discriminate|].
  destruct (parse_price (Csv.get row "price" (Some ""))) as [p|] eqn:Ep;
    [|discriminate].
  destruct (parse_qty (Csv.get row "qty" (Some ""))) as [q|] eqn:Eq;
    [|discriminate].
  cbn [bind].
  destruct (Decimal.mul p (Decimal.of_int q)) as [exact|] eqn:Em; [|discriminate].
  cbn [bind].
  destruct (Decimal.quantize exact cent Decimal.ROUND_HALF_UP) as [lt|] eqn:El;
    [|discriminate].
  cbn [bind].
  destruct (Decimal.add total lt) as [t|] eqn:Ea; [|discriminate].
  cbn [bind]. intros H. injection H as <- <-.
  exists p, q, exact, lt. repeat split; assumption || reflexivity.
Qed.

Lemma for_rows_cons h r0 r rest items total :
  for_rows h (Csv.Row (r0 :: r) rest) items total
  = (st <- process_row (Csv.make_row [] h (r0 :: r)) items total ;;
     for_rows h rest (fst st) (snd st)).
Proof. reflexivity. Qed.

(** X5.  When the loop over the rows ends normally, the items are the ones
    it started with followed by one item for each row with a field, in the
    order of the rows, each with the stripped product cell of its row: no
    row is dropped, merged or moved. *)
Theorem items_follow_rows h rs : forall items0 total0 items total,
  for_rows h rs items0 total0 = Return (items, total) ->
  map product items
  = (map product items0 ++ map (product_of h) (data_rows rs))%list.
Proof.
  induction rs as [| r rest IH | e]; intros items0 total0 items total H.
  - cbn in H. injection H as <- _. cbn [data_rows map]. now rewrite app_nil_r.
  - destruct r as [|r0 r].
    + cbn [for_rows data_rows] in *. eapply IH, H.
    + rewrite for_rows_cons in H.
      destruct (process_row (Csv.make_row [] h (r0 :: r)) items0 total0)
        as [[items1 total1]|] eqn:Ep; [|discriminate].
      cbn [bind fst snd] in H.
      destruct (process_row_inv _ _ _ _ _ Ep)
        as (p & q & exact & lt & _ & _ & _ & _ & _ & _ & ->).
      rewrite (IH _ _ _ _ H). cbn [data_rows map].
      rewrite map_app. cbn [map product]. rewrite <- app_assoc. reflexivity.
  - discriminate.
Qed.

Lemma items_follow_rows_witness :
  map product [mkItem "Apple" "1.50" 2 "3.00"; mkItem "Bread" "0.99" 3 "2.97"]
  = (map product []
     ++ map (product_of ["product"; "price"; "qty"])
          (data_rows (Csv.Row ["Apple"; "1.50"; "2"]
                        (Csv.Row [] (Csv.Row ["Bread"; "0.99"; "3"] Csv.Stop)))))%list.
Proof.
  apply (items_follow_rows ["product"; "price"; "qty"] _ [] zero_total _
           (Decimal.Fin false 597 (-2))).
  vm_compute. reflexivity.
Defined.

(** ** Files without text *)

Lemma lstrip_spaces s :
  PyStr.forallb PyStr.isspace s = true -> PyStr.lstrip s = "".
Proof.
  induction s as [|c s IH]; [reflexivity|].
  cbn [PyStr.forallb PyStr.lstrip]. rewrite andb_true_iff. intros [Hc Hs].
  rewrite Hc. now apply IH.
Qed.

Lemma read_text_spaces_step s :
  (PyStr.forallb PyStr.isspace s = true ->
   PyStr.forallb PyStr.isspace (Csv.read_text s) = true)
  /\ forall c, PyStr.forallb PyStr.isspace (String c s) = true ->
               PyStr.forallb PyStr.isspace (Csv.read_text (String c s)) = true.
Proof.
  induction s as [|c' s' [IH1 IH2]].
  - split; [reflexivity|]. intros c H. rewrite read_text_cons.
    cbn [PyStr.forallb] in H. apply andb_true_iff in H. destruct H as [Hc _].
    destruct (Ascii.eqb c Csv.CR); cbn [Csv.read_text PyStr.forallb];
      [reflexivity | now rewrite Hc].
  - split; [apply IH2|]. intros c H. rewrite read_text_cons.
    cbn [PyStr.forallb] in H. apply andb_true_iff in H. destruct H as [Hc Hs].
    pose proof Hs as Hs'.
    cbn [PyStr.forallb] in Hs'. apply andb_true_iff in Hs'.
    destruct Hs' as [_ Hs''].
    destruct (Ascii.eqb c Csv.CR).
    + destruct (Ascii.eqb c' Csv.LF); cbn [PyStr.forallb];
        change (PyStr.isspace Csv.LF) with true; cbn [andb].
      * now apply IH1.
      * now apply IH2.
    + cbn [PyStr.forallb]. rewrite Hc. cbn [andb]. now apply IH2.
Qed.

(** X6.  A file that holds only whitespace (or nothing) is refused as
    empty before the delimiter is looked for, whatever the detector would
    say; a missing file is refused as not found. *)
Theorem blank_file_errors sniff :
  read_csv_rows sniff None = Raise (CliError CsvNotFound)
  /\ forall content,
       PyStr.forallb PyStr.isspace content = true ->
       read_csv_rows sniff (Some content) = Raise (CliError CsvEmpty).
Proof.
  split; [reflexivity|]. intros content H.
  unfold read_csv_rows, PyStr.strip.
  rewrite lstrip_spaces by (now apply read_text_spaces_step). reflexivity.
Qed.

Lemma blank_file_errors_witness :
  read_csv_rows (sniffed ",") (Some (" " ++ nl ++ " ")) = Raise (CliError CsvEmpty).
Proof. apply (proj2 (blank_file_errors (sniffed ","))). reflexivity. Defined.

(** ** Rounding to the precision of the context *)

Section Rounding.

Import Decimal.

Lemma round_coeff_bounds r c k :
  0 <= k ->
  Z.of_N c / 10 ^ k <= Z.of_N (round_coeff r c k) <= Z.of_N c / 10 ^ k + 1.
Proof.
  intros Hk. unfold round_coeff.
  assert (Hq : Z.of_N (c / pow10 k) = Z.of_N c / 10 ^ k)
    by (rewrite N2Z.inj_div, pow10_Z by assumption; reflexivity).
  assert (Hq1 : Z.of_N (c / pow10 k + 1) = Z.of_N c / 10 ^ k + 1)
    by (rewrite N2Z.inj_add, Hq; reflexivity).
  generalize dependent (Z.of_N c / 10 ^ k). intros q Hq Hq1.
  destruct r.
  - destruct (pow10 k <=? 2 * (c mod pow10 k))%N; rewrite ?Hq, ?Hq1; timeout 20 lia.
  - destruct (pow10 k <? 2 * (c mod pow10 k))%N; [rewrite Hq1; timeout 20 lia|].
    destruct ((pow10 k =? 2 * (c mod pow10 k))%N && N.odd (c / pow10 k));
      rewrite ?Hq, ?Hq1; timeout 20 lia.
Qed.

(** Dropping the digits beyond the precision leaves [prec] digits, or the
    next power of ten. *)
Lemma round_to_prec r c :
  prec < ndigits c ->
  10 ^ (prec - 1) <= Z.of_N (round_coeff r c (ndigits c - prec)) <= 10 ^ prec.
Proof.
  intros Hn.
  destruct (ndigits_spec c) as (H1 & H2 & H3).
  assert (Hc : c <> 0%N).
  { intros ->. change (ndigits 0) with 1 in Hn. unfold prec in Hn. lia. }
  specialize (H3 Hc).
  assert (Hprec : 1 <= prec) by (unfold prec; lia).
  set (k := ndigits c - prec) in *.
  assert (Hk : 0 < k) by (unfold k; lia).
  pose proof (round_coeff_bounds r c k ltac:(lia)) as Hb.
  pose proof (pow_pos k ltac:(lia)) as Hp.
  assert (Hlo : 10 ^ (prec - 1) <= Z.of_N c / 10 ^ k).
  { apply Z.div_le_lower_bound; [assumption|].
    rewrite <- Z.pow_add_r by lia.
    replace (k + (prec - 1)) with (ndigits c - 1) by (unfold k; lia). assumption. }
  assert (Hhi : Z.of_N c / 10 ^ k < 10 ^ prec).
  { apply Z.div_lt_upper_bound; [assumption|].
    rewrite <- Z.pow_add_r by lia.
    replace (k + prec) with (ndigits c) by (unfold k; lia). assumption. }
  generalize dependent (10 ^ prec). generalize dependent (10 ^ (prec - 1)).
  intros. timeout 20 lia.
Qed.

Lemma pow_prec_succ : 10 ^ prec = 10 * 10 ^ (prec - 1).
Proof.
  replace prec with ((prec - 1) + 1) at 1 by lia.
  apply pow_succ. unfold prec. lia.
Qed.

(** [_fix] on a number that is neither zero nor subnormal: unchanged when
    it fits the precision, else cut to [prec] digits at a larger
    exponent. *)
Lemma fix_nonzero s c e d :
  c <> 0%N ->
  Etiny <= ndigits c + e - prec ->
  _fix (Fin s c e) = Return d ->
  (ndigits c <= prec /\ d = Fin s c e)
  \/ (prec < ndigits c
      /\ exists c' e', d = Fin s c' e' /\ c' <> 0%N /\ ndigits c' = prec
                       /\ ndigits c + e - prec <= e').
Proof.
  intros Hc Hsub. unfold _fix.
  destruct (N.eqb_spec c 0) as [|_]; [contradiction|].
  destruct (ndigits c + e - prec >? Etop); [discriminate|].
  rewrite Z.max_l by lia.
  assert (Hprec : 1 <= prec) by (unfold prec; lia).
  destruct (Z.ltb_spec e (ndigits c + e - prec)) as [Hlt|Hge].
  - intros H. right. split; [lia|].
    replace (ndigits c + e - prec - e) with (ndigits c - prec) in H by lia.
    pose proof (round_to_prec ROUND_HALF_EVEN c ltac:(lia)) as [Hlo Hhi].
    set (c' := round_coeff ROUND_HALF_EVEN c (ndigits c - prec)) in *.
    destruct (ndigits_spec c') as (N1 & N2 & N3).
    pose proof (pow_pos (prec - 1) ltac:(lia)) as Hpos.
    pose proof pow_prec_succ as Hsucc.
    assert (Hc' : c' <> 0%N).
    { intros E. rewrite E in Hlo. change (Z.of_N 0) with 0 in Hlo. lia. }
    specialize (N3 Hc').
    destruct (Z.gtb_spec (ndigits c') prec) as [Hbig|Hsmall].
    + pose proof (pow_le prec (ndigits c' - 1) ltac:(lia)) as Hle.
      assert (Eq : Z.of_N c' = 10 * 10 ^ (prec - 1)) by lia.
      assert (Ediv : Z.of_N (c' / 10) = 10 ^ (prec - 1)).
      { rewrite N2Z.inj_div, Eq. change (Z.of_N 10) with 10.
        rewrite Z.mul_comm. apply Z.div_mul. lia. }
      cbv beta iota in H.
      destruct (ndigits c + e - prec + 1 >? Etop); [discriminate H|].
      injection H as <-. exists (c' / 10)%N, (ndigits c + e - prec + 1).
      split; [reflexivity|]. split; [|split].
      * intros E. rewrite E in Ediv. change (Z.of_N 0) with 0 in Ediv. lia.
      * apply ndigits_unique; [lia|]. rewrite Ediv, Hsucc. lia.
      * lia.
    + cbv beta iota in H.
      destruct (ndigits c + e - prec >? Etop); [discriminate H|].
      injection H as <-. exists c', (ndigits c + e - prec).
      split; [reflexivity|]. split; [assumption|]. split; [|lia].
      apply ndigits_unique; [lia|].
      pose proof (pow_le (ndigits c') prec ltac:(lia)). lia.
  - intros H. left. split; [lia|]. now injection H as <-.
Qed.

End Rounding.
(** ** Two places within the precision *)

Section TwoPlaces.

Import Decimal.

Lemma quantize_two_places s c r :
  ndigits c <= prec ->
  quantize (Fin s c (-2)) cent r = Return (Fin s c (-2)).
Proof.
  intros Hn. destruct context_bounds as (E1 & E2 & E3 & E4).
  pose proof (ndigits_spec c) as [H1 _].
  unfold quantize, cent. cbn [_check_nans].
  change (negb ((Etiny <=? -2) && (-2 <=? Emax))) with false. cbv iota.
  destruct (N.eqb_spec c 0) as [->|Hc]; [now apply fix_two_places|].
  unfold adjusted.
  destruct (Z.gtb_spec (-2 + ndigits c - 1) Emax); [lia|].
  destruct (Z.gtb_spec (-2 + ndigits c - 1 - -2 + 1) prec); [lia|].
  unfold _rescale. destruct (N.eqb_spec c 0) as [|_]; [contradiction|].
  change (-2 <=? -2) with true. cbv iota.
  change (pow10 (-2 - -2)) with 1%N. rewrite N.mul_1_r.
  destruct (Z.gtb_spec (-2 + ndigits c - 1) Emax); [lia|].
  destruct (Z.gtb_spec (ndigits c) prec); [lia|].
  now apply fix_two_places.
Qed.

(** A number of 27 digits or more before the point cannot be written with
    two places in 28 digits. *)
Lemma quantize_too_wide s c e r :
  c <> 0%N -> 26 < ndigits c + e ->
  quantize (Fin s c e) cent r = Raise InvalidOperation.
Proof.
  intros Hc Hw. destruct context_bounds as (E1 & E2 & E3 & E4).
  unfold quantize, cent. cbn [_check_nans].
  change (negb ((Etiny <=? -2) && (-2 <=? Emax))) with false. cbv iota.
  destruct (N.eqb_spec c 0) as [|_]; [contradiction|].
  destruct (adjusted c e >? Emax); [reflexivity|].
  unfold adjusted. destruct (Z.gtb_spec (e + ndigits c - 1 - -2 + 1) prec);
    [reflexivity | lia].
Qed.

Lemma fix_keeps_wide s m e d :
  m <> 0%N -> 26 < ndigits m + e ->
  _fix (Fin s m e) = Return d ->
  exists c' e', d = Fin s c' e' /\ c' <> 0%N /\ 26 < ndigits c' + e'.
Proof.
  intros Hm Hw H. destruct context_bounds as (E1 & E2 & E3 & E4).
  destruct (fix_nonzero s m e d Hm ltac:(lia) H)
    as [[Hn ->] | [Hn (c' & e' & -> & Hc' & Hd & He)]].
  - exists m, e. repeat split; assumption.
  - exists c', e'. repeat split; [assumption | lia].
Qed.

(** The line total of a price of two places and a quantity: when the
    product and its rounding return, the line total is the product, digit
    for digit. *)
Lemma line_total_exact s pc q exact lt :
  (s = true -> pc = 0%N) ->
  0 <= q ->
  mul (Fin s pc (-2)) (of_int q) = Return exact ->
  quantize exact cent ROUND_HALF_UP = Return lt ->
  lt = Fin s (pc * Z.abs_N q) (-2) /\ ndigits (pc * Z.abs_N q) <= prec.
Proof.
  intros Hs Hq. destruct context_bounds as (E1 & E2 & E3 & E4).
  unfold mul, of_int. cbn [_check_nans].
  replace (q <? 0) with false by (symmetry; apply Z.ltb_ge; lia).
  rewrite xorb_false_r. change (-2 + 0) with (-2).
  set (m := (pc * Z.abs_N q)%N).
  pose proof (ndigits_spec m) as [H1 _].
  destruct (N.eq_dec m 0) as [E0|Hm].
  - rewrite E0, fix_two_places by (change (ndigits 0) with 1; lia).
    intros He. injection He as <-.
    rewrite quantize_two_places by (change (ndigits 0) with 1; lia).
    intros Hl. injection Hl as <-. split; [reflexivity|].
    change (ndigits 0) with 1. lia.
  - intros He.
    destruct (fix_nonzero s m (-2) exact Hm ltac:(lia) He)
      as [[Hn ->] | [Hn (c' & e' & -> & Hc' & Hd & Hle)]].
    + rewrite quantize_two_places by assumption.
      intros Hl. injection Hl as <-. split; [reflexivity | assumption].
    + rewrite quantize_too_wide by (assumption || lia). intros Hl. discriminate Hl.
Qed.

End TwoPlaces.
(** ** The running total *)

Section Running.

Import Decimal.

Lemma pow10_nonzero k : pow10 k <> 0%N.
Proof. pose proof (pow10_pos k). lia. Qed.

Lemma ndigits_add_l a b : a <> 0%N -> ndigits a <= ndigits (a + b).
Proof. intros Ha. apply ndigits_mono; [assumption | lia]. Qed.

Lemma add_running total sum s c total' :
  running total sum ->
  (s = true -> c = 0%N) ->
  ndigits c <= prec ->
  add total (Fin s c (-2)) = Return total' ->
  running total' (sum + Z.of_N c).
Proof.
  intros (tc & te & -> & Hrun) Hs Hn. destruct context_bounds as (E1 & E2 & E3 & E4).
  pose proof (ndigits_spec c) as [Hc1 _].
  pose proof (ndigits_spec tc) as [Ht1 _].
  unfold add. cbn [_check_nans].
  destruct (N.eqb_spec tc 0) as [->|Htc]; destruct (N.eqb_spec c 0) as [->|Hc];
    cbn [andb].
  - (* both zero *)
    destruct Hrun as [(-> & <- & _) | [Hx _]]; [|congruence].
    change (Z.min (-2) (-2)) with (-2).
    rewrite fix_two_places by assumption.
    intros H. injection H as <-. exists 0%N, (-2).
    split; [reflexivity|]. left. split; [reflexivity | split; [lia | assumption]].
  - (* the total is zero *)
    destruct Hrun as [(-> & <- & _) | [Hx _]]; [|congruence].
    destruct s; [specialize (Hs eq_refl); contradiction|].
    change (Z.max (Z.min (-2) (-2)) (-2 - prec - 1)) with (-2).
    unfold _rescale. destruct (N.eqb_spec c 0) as [|_]; [contradiction|].
    change (-2 <=? -2) with true. cbv iota.
    change (pow10 (-2 - -2)) with 1%N. rewrite N.mul_1_r.
    rewrite fix_two_places by assumption.
    intros H. injection H as <-. exists c, (-2).
    split; [reflexivity|]. left. split; [reflexivity | split; [lia | assumption]].
  - (* the line total is zero *)
    destruct Hrun as [(-> & <- & Hnt) | [_ Hw]].
    + change (Z.max (Z.min (-2) (-2)) (-2 - prec - 1)) with (-2).
      unfold _rescale. destruct (N.eqb_spec tc 0) as [|_]; [contradiction|].
      change (-2 <=? -2) with true. cbv iota.
      change (pow10 (-2 - -2)) with 1%N. rewrite N.mul_1_r.
      rewrite fix_two_places by assumption.
      intros H. injection H as <-. exists tc, (-2).
      split; [reflexivity|]. left. split; [reflexivity | split; [lia | assumption]].
    + set (g := Z.max (Z.min te (-2)) (te - prec - 1)).
      assert (Hg : g <= te) by (unfold g; lia).
      unfold _rescale. destruct (N.eqb_spec tc 0) as [|_]; [contradiction|].
      destruct (Z.leb_spec g te) as [_|]; [|lia].
      intros H.
      assert (Hm : (tc * pow10 (te - g))%N <> 0%N).
      { pose proof (pow10_nonzero (te - g)). lia. }
      pose proof (ndigits_mul_pow10 tc (te - g) Htc ltac:(lia)) as Hd.
      apply fix_keeps_wide in H; [| exact Hm | lia];
      destruct H as (c' & e' & -> & Hc' & Hw').
      exists c', e'. split; [reflexivity|]. right. split; assumption.
  - (* neither is zero *)
    destruct s; [specialize (Hs eq_refl); contradiction|].
    cbn [xorb]. unfold normalize.
    destruct (Z.ltb_spec te (-2)) as [Hlt|Hge].
    + destruct Hrun as [(-> & _) | [_ Hw]]; [lia|].
      unfold align.
      destruct (Z.ltb_spec (ndigits tc + te - 1)
                  (-2 + Z.min (-1) (ndigits c - prec - 2))) as [|_]; [lia|].
      cbv beta iota. intros H.
      assert (Hm : (tc + c * pow10 (-2 - te))%N <> 0%N) by lia.
      pose proof (ndigits_add_l tc (c * pow10 (-2 - te)) Htc) as Hd.
      apply fix_keeps_wide in H; [| exact Hm | lia];
      destruct H as (c' & e' & -> & Hc' & Hw').
      exists c', e'. split; [reflexivity|]. right. split; assumption.
    + unfold align.
      set (exp := te + Z.min (-1) (ndigits tc - prec - 2)).
      destruct (Z.ltb_spec (ndigits c + -2 - 1) exp) as [Hrep|Hkeep].
      * destruct Hrun as [(-> & _) | [_ Hw]]; [unfold exp in Hrep; lia|].
        cbv beta iota. intros H.
        assert (He : 0 <= te - exp) by (unfold exp; lia).
        assert (Hm0 : (tc * pow10 (te - exp))%N <> 0%N).
        { pose proof (pow10_nonzero (te - exp)). lia. }
        assert (Hm : (tc * pow10 (te - exp) + 1)%N <> 0%N) by lia.
        pose proof (ndigits_mul_pow10 tc (te - exp) Htc He) as Hd.
        pose proof (ndigits_add_l (tc * pow10 (te - exp)) 1 Hm0) as Hd'.
        apply fix_keeps_wide in H; [| exact Hm | lia];
      destruct H
          as (c' & e' & -> & Hc' & Hw').
        exists c', e'. split; [reflexivity|]. right. split; assumption.
      * cbv beta iota. intros H.
        assert (Hm0 : (tc * pow10 (te - -2))%N <> 0%N).
        { pose proof (pow10_nonzero (te - -2)). lia. }
        assert (Hm : (tc * pow10 (te - -2) + c)%N <> 0%N) by lia.
        pose proof (ndigits_mul_pow10 tc (te - -2) Htc ltac:(lia)) as Hd.
        pose proof (ndigits_add_l (tc * pow10 (te - -2)) c Hm0) as Hd'.
        destruct Hrun as [(-> & <- & Hnt) | [_ Hw]].
        { change (pow10 (-2 - -2)) with 1%N in *. rewrite N.mul_1_r in *.
          pose proof (ndigits_spec (tc + c)) as [Hs1 _].
          apply fix_nonzero in H; [| exact Hm | lia];
          destruct H
            as [[Hfit ->] | [Hbig (c' & e' & -> & Hc' & Hd1 & Hle)]].
          - exists (tc + c)%N, (-2). split; [reflexivity|]. left.
            split; [reflexivity | split; [lia | assumption]].
          - exists c', e'. split; [reflexivity|]. right. split; [assumption | lia]. }
        { apply fix_keeps_wide in H; [| exact Hm | lia];
      destruct H
            as (c' & e' & -> & Hc' & Hw').
          exists c', e'. split; [reflexivity|]. right. split; assumption. }
Qed.

End Running.
(** ** The loop keeps the total exact *)

Section Receipt.

Import Decimal.

Lemma round_two_places m : Exact.round_half_up 2 (m, -2) = (m, -2).
Proof.
  unfold Exact.round_half_up. change (- (2)) with (-2).
  change (-2 <=? -2) with true. cbv iota.
  change (10 ^ (-2 - -2)) with 1. now rewrite Z.mul_1_r.
Qed.

Lemma process_row_running row items total sum items' total' :
  process_row row items total = Return (items', total') ->
  running total sum ->
  exists l,
    items' = (items ++ [item_of_line l])%list
    /\ line_ok l
    /\ running total' (sum + fst (Exact.of_decimal (l_total l))).
Proof.
  intros H Hrun.
  destruct (process_row_inv _ _ _ _ _ H)
    as (p & q & exact & lt & _ & Ep & Eq & Em & El & Ea & ->).
  pose proof (parse_price_shape (Csv.get row "price" (Some ""))) as Hp.
  rewrite Ep in Hp. destruct Hp as (s & pc & -> & _ & Hs).
  pose proof (parse_qty_shape (Csv.get row "qty" (Some ""))) as Hq.
  rewrite Eq in Hq.
  destruct (line_total_exact s pc q exact lt Hs Hq Em El) as [-> Hn].
  assert (Hm : Z.of_N (pc * Z.abs_N q) = Z.of_N pc * q).
  { rewrite N2Z.inj_mul, N2Z.inj_abs_N, Z.abs_eq by assumption. reflexivity. }
  assert (Hsign : (if s then - Z.of_N (pc * Z.abs_N q) else Z.of_N (pc * Z.abs_N q))
                  = Z.of_N (pc * Z.abs_N q)).
  { destruct s; [|reflexivity]. rewrite (Hs eq_refl). reflexivity. }
  exists (mkLine (PyStr.strip (or_empty (Csv.get row "product" None)))
            (Fin s pc (-2)) q (Fin s (pc * Z.abs_N q) (-2))).
  split; [reflexivity|]. split.
  - unfold line_ok. cbn [l_price l_total l_qty].
    split; [now exists s, pc|]. split; [now eexists _, _|]. split; [assumption|].
    unfold Exact.mul_int, Exact.of_decimal. cbn [fst snd].
    rewrite round_two_places. f_equal.
    destruct s; [|exact Hm]. rewrite (Hs eq_refl). reflexivity.
  - cbn [l_total Exact.of_decimal fst]. rewrite Hsign.
    apply (add_running total sum s (pc * Z.abs_N q)%N total' Hrun); try assumption.
    intros ->. rewrite (Hs eq_refl). reflexivity.
Qed.

Lemma for_rows_running h rs : forall items0 total0 sum0 items total,
  for_rows h rs items0 total0 = Return (items, total) ->
  running total0 sum0 ->
  exists lines,
    items = (items0 ++ map item_of_line lines)%list
    /\ Forall line_ok lines
    /\ running total (sum0 + sum_cents lines).
Proof.
  induction rs as [| r rest IH | e]; intros items0 total0 sum0 items total H Hrun.
  - cbn in H. injection H as <- <-. exists []. cbn [map sum_cents fold_right].
    rewrite app_nil_r, Z.add_0_r. repeat split; [constructor | assumption].
  - destruct r as [|r0 r].
    + cbn [for_rows] in H. eapply IH; eassumption.
    + rewrite for_rows_cons in H.
      destruct (process_row (Csv.make_row [] h (r0 :: r)) items0 total0)
        as [[items1 total1]|] eqn:Ep; [|discriminate H].
      cbn [bind fst snd] in H.
      destruct (process_row_running _ _ _ sum0 _ _ Ep Hrun) as (l & -> & Hl & Hrun1).
      destruct (IH _ _ _ _ _ H Hrun1) as (lines & -> & Hls & Hrun2).
      exists (l :: lines). cbn [map sum_cents fold_right].
      rewrite <- app_assoc. repeat split.
      * constructor; assumption.
      * fold (sum_cents lines). now rewrite Z.add_assoc.
  - discriminate H.
Qed.

Lemma read_csv_rows_inv sniff file items total :
  read_csv_rows sniff file = Return (items, total) ->
  exists h rs t,
    for_rows h rs [] zero_total = Return (items, t)
    /\ quantize t cent ROUND_HALF_UP = Return total.
Proof.
  unfold read_csv_rows, bind.
  repeat (split_match; try discriminate).
  intros H. injection H as <- <-.
  match goal with
  | Hf : for_rows ?h ?rs [] zero_total = Return ?st, Hq : quantize _ _ _ = Return _ |- _ =>
      exists h, rs, (snd st); split; [|exact Hq]
  end.
  match goal with
  | Hf : for_rows _ _ [] zero_total = Return ?st, Hi : fst ?st = _ |- _ =>
      rewrite Hf; destruct st; cbn [fst snd] in *; now subst
  end.
Qed.

Lemma sum_two_places (vs : list Exact.value) :
  Forall (fun v => snd v = -2) vs ->
  Exact.round_half_up 2 (Exact.sum vs) = (fold_right (fun v acc => fst v + acc) 0 vs, -2).
Proof.
  intros H.
  assert (Hsum : (vs = [] /\ Exact.sum vs = (0, 0))
                 \/ Exact.sum vs = (fold_right (fun v acc => fst v + acc) 0 vs, -2)).
  { induction H as [|[m e] vs Hv Hvs IH]; [now left|]. right.
    cbn [snd] in Hv. subst e. cbn [Exact.sum fold_right fst].
    fold (Exact.sum vs).
    destruct IH as [[-> ->] | ->]; unfold Exact.add; cbn [fst snd fold_right].
    - change (Z.min (-2) 0) with (-2). change (10 ^ (-2 - -2)) with 1.
      f_equal. lia.
    - change (Z.min (-2) (-2)) with (-2). change (10 ^ (-2 - -2)) with 1.
      f_equal. lia. }
  destruct Hsum as [[-> ->] | ->]; [reflexivity|].
  apply round_two_places.
Qed.

(** X7.  For every receipt the loader returns, the items come from lines
    whose price and line total have two places, the line total being the
    price times the quantity rounded half up to two places, and the total
    is the exact sum of the line totals rounded half up to two places: no
    rounding to the 28 digits of the context has touched it. *)
Theorem receipt_arithmetic sniff file items total :
  read_csv_rows sniff file = Return (items, total) ->
  exists lines,
    items = map item_of_line lines
    /\ Forall line_ok lines
    /\ two_places total
    /\ Exact.of_decimal total
       = Exact.round_half_up 2
           (Exact.sum (map (fun l => Exact.of_decimal (l_total l)) lines)).
Proof.
  intros H.
  destruct (read_csv_rows_inv _ _ _ _ H) as (h & rs & t & Hf & Hq).
  assert (Hzero : running zero_total 0).
  { exists 0%N, (-2). split; [reflexivity|]. left.
    split; [reflexivity | split; [reflexivity|]].
    change (ndigits 0) with 1. unfold prec. lia. }
  destruct (for_rows_running h rs [] zero_total 0 items t Hf Hzero)
    as (lines & -> & Hls & (c & e & -> & Hrun)).
  exists lines. cbn [app]. split; [reflexivity|]. split; [assumption|].
  destruct Hrun as [(-> & Hc & Hn) | [Hc Hw]].
  - rewrite quantize_two_places in Hq by assumption. injection Hq as <-.
    split; [now exists false, c|].
    rewrite sum_two_places.
    + cbn [Exact.of_decimal]. f_equal. rewrite Hc. cbn [Z.add].
      clear. induction lines as [|l lines IH]; [reflexivity|].
      cbn [map fold_right sum_cents]. fold (sum_cents lines). now rewrite IH.
    + clear - Hls. induction Hls as [|l lines Hl _ IH]; constructor; [|assumption].
      destruct Hl as (_ & (s & c & ->) & _). reflexivity.
  - rewrite quantize_too_wide in Hq by assumption. discriminate Hq.
Qed.

Lemma receipt_arithmetic_witness :
  exists lines,
    [mkItem "Apple" "1.50" 2 "3.00"; mkItem "Bread" "0.99" 3 "2.97"]
    = map item_of_line lines
    /\ Forall line_ok lines
    /\ two_places (Fin false 597 (-2))
    /\ Exact.of_decimal (Fin false 597 (-2))
       = Exact.round_half_up 2
           (Exact.sum (map (fun l => Exact.of_decimal (l_total l)) lines)).
Proof.
  apply (receipt_arithmetic (sniffed ",") (Some apple_bread)).
  vm_compute. reflexivity.
Defined.

End Receipt.

(** ** The matcher, piece by piece *)

Section Matcher.

Import Regex.

Lemma app_assoc_s (a b c : string) : (a ++ b) ++ c = a ++ (b ++ c).
Proof. induction a as [|x a IH]; cbn; [reflexivity | now rewrite IH]. Qed.

Lemma app_empty_r (a : string) : a ++ "" = a.
Proof. induction a as [|x a IH]; cbn; [reflexivity | now rewrite IH]. Qed.

Lemma length_app (a b : string) :
  String.length (a ++ b) = (String.length a + String.length b)%nat.
Proof. induction a as [|x a IH]; cbn; [reflexivity | now rewrite IH]. Qed.

Lemma last_char_app prev a b :
  last_char prev (a ++ b) = last_char (last_char prev a) b.
Proof. revert prev. induction a as [|x a IH]; intros prev; cbn; [reflexivity | apply IH]. Qed.

(** A literal matches itself and nothing else. *)
Lemma matches_lit w : forall prev s k,
  matches (lit w) prev s k = true
  <-> exists s', s = w ++ s' /\ k (last_char prev w) s' = true.
Proof.
  induction w as [|c w IH]; intros prev s k; cbn [lit matches last_char].
  - split; [intros H; now exists s | intros (s' & -> & H); exact H].
  - destruct s as [|d s].
    + split; [discriminate | intros (s' & H & _); discriminate H].
    + destruct (Ascii.eqb_spec c d) as [->|Hne].
      * rewrite IH. split; intros (s' & Hs & Hk); exists s'.
        -- subst s. split; [reflexivity | assumption].
        -- cbn in Hs. injection Hs as ->. split; [reflexivity | assumption].
      * split; [discriminate|]. intros (s' & Hs & _). cbn in Hs. congruence.
Qed.

(** A body that takes one character of the class [P]. *)
Definition one_char (P : ascii -> bool)
    (body : option ascii -> string -> (option ascii -> string -> bool) -> bool) : Prop :=
  forall prev s k,
    body prev s k = true
    <-> exists d s', s = String d s' /\ P d = true /\ k (Some d) s' = true.

Lemma one_char_NotChr c : one_char (fun d => negb (Ascii.eqb c d)) (matches (NotChr c)).
Proof.
  intros prev s k. cbn [matches]. destruct s as [|d s].
  - split; [discriminate | intros (d & s' & H & _); discriminate H].
  - destruct (Ascii.eqb c d) eqn:E; cbn [negb].
    + split; [discriminate|]. intros (d' & s' & H & Hp & _).
      injection H as <- <-. rewrite E in Hp. discriminate Hp.
    + split.
      * intros H. exists d, s. rewrite E. repeat split. exact H.
      * intros (d' & s' & H & _ & Hk). injection H as <- <-. exact Hk.
Qed.

Lemma one_char_Word : one_char PyStr.isword (matches Word).
Proof.
  intros prev s k. cbn [matches]. destruct s as [|d s].
  - split; [discriminate | intros (d & s' & H & _); discriminate H].
  - destruct (PyStr.isword d) eqn:E.
    + split.
      * intros H. now exists d, s.
      * intros (d' & s' & H & _ & Hk). injection H as <- <-. exact Hk.
    + split; [discriminate|]. intros (d' & s' & H & Hp & _).
      injection H as <- <-. rewrite E in Hp. discriminate Hp.
Qed.

(** A starred class takes a run of characters of the class. *)
Lemma star_one_char P body k :
  one_char P body ->
  forall fuel prev s,
    (String.length s <= fuel)%nat ->
    (star body k fuel prev s = true
     <-> exists a s', s = a ++ s' /\ PyStr.forallb P a = true
                      /\ k (last_char prev a) s' = true).
Proof.
  intros Hbody. induction fuel as [|fuel IH]; intros prev s Hlen.
  - destruct s; [|cbn in Hlen; lia]. cbn [star].
    split.
    + intros H. exists "", "". cbn [append last_char PyStr.forallb].
      destruct (k prev ""); [now repeat split | discriminate H].
    + intros (a & s' & Hs & _ & Hk). destruct a; [|discriminate Hs].
      cbn in Hs. subst s'. cbn in Hk. now rewrite Hk.
  - cbn [star]. destruct (k prev s) eqn:Ek.
    + split; [|reflexivity]. intros _. exists "", s. now repeat split.
    + cbv iota. split.
      * intros H. apply Hbody in H. destruct H as (d & s1 & -> & Hp & Hk).
        destruct (Nat.ltb_spec (String.length s1) (String.length (String d s1)));
          [|discriminate Hk].
        apply IH in Hk; [|cbn in Hlen; lia].
        destruct Hk as (a & s' & -> & Ha & Hk).
        exists (String d a), s'. cbn [append PyStr.forallb last_char].
        rewrite Hp, Ha. now repeat split.
      * intros (a & s' & -> & Ha & Hk).
        destruct a as [|d a]; [cbn in Hk, Ek; congruence|].
        cbn [PyStr.forallb] in Ha. apply andb_true_iff in Ha. destruct Ha as [Hd Ha].
        apply Hbody.
        exists d, (a ++ s'). split; [reflexivity|]. split; [assumption|].
        destruct (Nat.ltb_spec (String.length (a ++ s'))
                    (String.length (String d a ++ s'))) as [_|Hge];
          [|cbn in Hge; lia].
        apply IH; [cbn in Hlen; lia|]. exists a, s'. now repeat split.
Qed.

Lemma matches_star_class P a k prev s :
  one_char P (matches a) ->
  (matches (Star a) prev s k = true
   <-> exists run s', s = run ++ s' /\ PyStr.forallb P run = true
                      /\ k (last_char prev run) s' = true).
Proof.
  intros H. cbn [matches]. now apply star_one_char.
Qed.

Lemma matches_opt a prev s k :
  matches (Opt a) prev s k = true
  <-> matches a prev s k = true \/ k prev s = true.
Proof.
  cbn [matches]. destruct (matches a prev s k); [tauto|].
  split; [now right | intros [H|H]; [discriminate H | exact H]].
Qed.

Lemma matches_boundary prev s k :
  matches Boundary prev s k = true
  <-> xorb (is_word prev) (is_word (head s)) = true /\ k prev s = true.
Proof.
  cbn [matches]. destruct (xorb (is_word prev) (is_word (head s)));
    [tauto | split; [discriminate | intros [H _]; discriminate H]].
Qed.

Lemma search_from_spec r : forall prev s,
  search_from r prev s = true
  <-> exists pre s1, s = pre ++ s1
                     /\ matches r (last_char prev pre) s1 (fun _ _ => true) = true.
Proof.
  intros prev s. revert prev. induction s as [|c s IH]; intros prev; cbn [search_from].
  - destruct (matches r prev "" (fun _ _ => true)) eqn:E.
    + split; [|reflexivity]. intros _. now exists "", "".
    + split; [discriminate|]. intros (pre & s1 & Hs & Hm).
      destruct pre; [|discriminate Hs]. cbn in Hs. subst s1. cbn in Hm. congruence.
  - destruct (matches r prev (String c s) (fun _ _ => true)) eqn:E.
    + split; [|reflexivity]. intros _. now exists "", (String c s).
    + rewrite IH. split.
      * intros (pre & s1 & -> & Hm). now exists (String c pre), s1.
      * intros (pre & s1 & Hs & Hm). destruct pre as [|d pre].
        -- cbn in Hs. subst s1. cbn in Hm. congruence.
        -- cbn in Hs. injection Hs as -> ->. now exists pre, s1.
Qed.

End Matcher.

(** ** The placeholder pattern *)

Section Placeholder.

Import Regex.

Lemma not_brace_contains b :
  PyStr.forallb (fun d => negb (Ascii.eqb "}" d)) b = true
  <-> PyStr.contains "}" b = false.
Proof.
  induction b as [|d b IH]; cbn [PyStr.forallb PyStr.contains]; [tauto|].
  rewrite andb_true_iff, orb_false_iff, negb_true_iff, IH. tauto.
Qed.

Lemma last_char_some p q s :
  s <> "" -> last_char p s = last_char q s.
Proof. destruct s; [congruence | reflexivity]. Qed.

Lemma is_word_last_brace a :
  is_word (last_char (Some "{"%char) a) = is_word (last_char None a).
Proof. destruct a; reflexivity. Qed.

Lemma head_app a b : a <> "" -> head (a ++ b) = head a.
Proof. destruct a; [congruence | reflexivity]. Qed.

Lemma is_word_head_braces b post :
  is_word (head (b ++ "}}" ++ post)) = is_word (head b).
Proof. destruct b; reflexivity. Qed.

Lemma word_not_brace run :
  PyStr.forallb PyStr.isword run = true -> PyStr.contains "}" run = false.
Proof.
  induction run as [|d run IH]; [reflexivity|].
  cbn [PyStr.forallb PyStr.contains]. rewrite andb_true_iff. intros [Hd Hr].
  rewrite (IH Hr). destruct (Ascii.eqb_spec "}" d) as [<-|]; [discriminate Hd | reflexivity].
Qed.

Variable name : string.
Hypothesis Hname : word_name name.

Lemma name_nonempty : name <> "".
Proof. destruct Hname as [H _]. intros E. rewrite E in H. discriminate H. Qed.

Lemma name_tail_spec p s :
  matches (name_tail name) p s (fun _ _ => true) = true
  <-> exists b post,
        s = name ++ b ++ "}}" ++ post
        /\ PyStr.contains "}" b = false
        /\ is_word (head b) = false.
Proof.
  unfold name_tail. cbn [matches]. rewrite matches_lit.
  assert (Hlast : is_word (last_char p name) = true).
  { rewrite (last_char_some p None name name_nonempty). apply Hname. }
  split.
  - intros (s1 & -> & H). apply matches_boundary in H. destruct H as [Hb H].
    apply (star_one_char _ _ _ (one_char_NotChr "}")) in H; [|lia].
    destruct H as (b & s2 & -> & Hnb & H).
    apply matches_lit in H. destruct H as (post & -> & _).
    exists b, post. split; [reflexivity|]. split; [now apply not_brace_contains|].
    rewrite Hlast, is_word_head_braces in Hb. now destruct (is_word (head b)).
  - intros (b & post & -> & Hnb & Hhead).
    exists (b ++ "}}" ++ post). split; [reflexivity|].
    apply matches_boundary. split.
    + rewrite Hlast, is_word_head_braces, Hhead. reflexivity.
    + apply (star_one_char _ _ _ (one_char_NotChr "}")); [lia|].
      exists b, ("}}" ++ post). split; [reflexivity|].
      split; [now apply not_brace_contains|].
      apply matches_lit. now exists post.
Qed.

Lemma placeholder_pattern_tail :
  placeholder_pattern name
  = Cat (lit "{{")
      (Cat (Star (NotChr "}"))
         (Cat Boundary
            (Cat (Opt (Cat (Plus Word) (Chr "."))) (name_tail name)))).
Proof. reflexivity. Qed.

Lemma matches_cat a b prev s k :
  matches (Cat a b) prev s k = matches a prev s (fun p' s' => matches b p' s' k).
Proof. reflexivity. Qed.

Lemma placeholder_match_spec prev s :
  matches (placeholder_pattern name) prev s (fun _ _ => true) = true
  <-> exists a b post,
        s = "{{" ++ a ++ name ++ b ++ "}}" ++ post
        /\ PyStr.contains "}" a = false
        /\ PyStr.contains "}" b = false
        /\ is_word (last_char None a) = false
        /\ is_word (head b) = false.
Proof.
  rewrite placeholder_pattern_tail, matches_cat. split.
  - intros H. apply matches_lit in H. destruct H as (s1 & -> & H).
    rewrite matches_cat in H.
    apply (matches_star_class _ _ _ _ _ (one_char_NotChr "}")) in H.
    destruct H as (a & s2 & -> & Ha & H).
    apply not_brace_contains in Ha.
    rewrite matches_cat in H.
    apply matches_boundary in H. destruct H as [Hb H].
    change (last_char (last_char prev "{{") a) with (last_char (Some "{"%char) a) in *.
    rewrite matches_cat in H.
    apply matches_opt in H. destruct H as [H|H].
    + (* a qualified name: the qualifier and its dot go with the text before *)
      rewrite matches_cat in H. unfold Plus in H. rewrite matches_cat in H.
      apply one_char_Word in H.
      destruct H as (d & s3 & -> & Hd & H).
      apply (matches_star_class _ _ _ _ _ one_char_Word) in H.
      destruct H as (run & s4 & -> & Hrun & H).
      cbn [matches] in H.
      destruct s4 as [|dot s5]; [discriminate H|].
      destruct (Ascii.eqb_spec "." dot) as [<-|]; [|discriminate H].
      apply name_tail_spec in H. destruct H as (b & post & -> & Hnb & Hhead).
      exists (a ++ String d run ++ "."), b, post.
      split; [|split; [|split; [assumption|split; [|assumption]]]].
      * cbn [append]. rewrite !app_assoc_s. cbn [append]. rewrite !app_assoc_s.
        reflexivity.
      * rewrite !contains_app, Ha.
        rewrite (word_not_brace (String d run))
          by (cbn [PyStr.forallb]; now rewrite Hd, Hrun).
        reflexivity.
      * rewrite !last_char_app. reflexivity.
    + apply name_tail_spec in H. destruct H as (b & post & -> & Hnb & Hhead).
      exists a, b, post. repeat split; try assumption.
      rewrite (head_app name _ name_nonempty) in Hb.
      destruct Hname as [Hfirst _]. rewrite Hfirst, is_word_last_brace in Hb.
      now destruct (is_word (last_char None a)).
  - intros (a & b & post & -> & Ha & Hnb & Hlast & Hhead).
    apply matches_lit. exists (a ++ name ++ b ++ "}}" ++ post).
    split; [reflexivity|].
    rewrite matches_cat.
    apply (matches_star_class _ _ _ _ _ (one_char_NotChr "}")).
    exists a, (name ++ b ++ "}}" ++ post). split; [reflexivity|].
    split; [now apply not_brace_contains|].
    change (last_char (last_char prev "{{") a) with (last_char (Some "{"%char) a).
    rewrite matches_cat.
    apply matches_boundary. split.
    + rewrite (head_app name _ name_nonempty).
      destruct Hname as [Hfirst _]. now rewrite Hfirst, is_word_last_brace, Hlast.
    + rewrite matches_cat. apply matches_opt. right. apply name_tail_spec.
      exists b, post. now repeat split.
Qed.

End Placeholder.

Lemma search_whole_word name text :
  word_name name ->
  (Regex.search (placeholder_pattern name) text = true
   <-> whole_word_placeholder name text).
Proof.
  intros Hname. unfold Regex.search, whole_word_placeholder.
  rewrite search_from_spec. split.
  - intros (pre & s1 & -> & H). apply (placeholder_match_spec name Hname) in H.
    destruct H as (a & b & post & -> & H). now exists pre, a, b, post.
  - intros (pre & a & b & post & -> & H).
    exists pre, ("{{" ++ a ++ name ++ b ++ "}}" ++ post). split; [reflexivity|].
    apply (placeholder_match_spec name Hname). now exists a, b, post.
Qed.

(** X8.  For a name that starts and ends with a word character, the
    pattern of the placeholder check finds a match in a text exactly when
    the text holds two opening braces, the name as a whole word, and two
    closing braces, with no closing brace in between: the name must not
    touch a word character on either side, and a qualifier with a dot adds
    nothing. *)
Theorem placeholder_search_whole_word name text :
  word_name name ->
  (Regex.search (placeholder_pattern name) text = true
   <-> whole_word_placeholder name text).
Proof. exact (search_whole_word name text). Qed.

Lemma placeholder_search_whole_word_witness :
  Regex.search (placeholder_pattern "total") "<b>{{ receipt.total }}</b>" = true
  <-> whole_word_placeholder "total" "<b>{{ receipt.total }}</b>".
Proof.
  apply (placeholder_search_whole_word "total" "<b>{{ receipt.total }}</b>").
  split; reflexivity.
Defined.


(** ** The placeholder check *)

Lemma check_placeholders_spec names text :
  Forall word_name names ->
  match check_placeholders names text with
  | Return _ => Forall (fun n => whole_word_placeholder n text) names
  | Raise e =>
      exists before n after,
        names = (before ++ n :: after)%list
        /\ Forall (fun m => whole_word_placeholder m text) before
        /\ ~ whole_word_placeholder n text
        /\ e = CliError (MissingPlaceholder n)
  end.
Proof.
  induction 1 as [|n names Hn Hnames IH]; cbn [check_placeholders].
  - constructor.
  - pose proof (search_whole_word n text Hn) as Hs.
    destruct (Regex.search (placeholder_pattern n) text).
    + assert (Hw : whole_word_placeholder n text) by now apply Hs.
      destruct (check_placeholders names text) as [u|e].
      * now constructor.
      * destruct IH as (before & m & after & -> & Hb & Hm & ->).
        exists (n :: before), m, after. repeat split; try assumption.
        now constructor.
    + exists [], n, names. repeat split; [constructor|].
      intros Hw. apply Hs in Hw. discriminate Hw.
Qed.

Lemma required_names_words : Forall word_name required_names.
Proof. repeat constructor. Qed.

(** X9.  The placeholder check passes exactly when each of product, price,
    qty and total stands as a whole word between double braces in the
    template; else it raises the missing-placeholder error for the first of
    the four, in that order, that does not. *)
Theorem ensure_placeholders_spec text :
  match ensure_placeholders text with
  | Return _ => Forall (fun n => whole_word_placeholder n text) required_names
  | Raise e =>
      exists before n after,
        required_names = (before ++ n :: after)%list
        /\ Forall (fun m => whole_word_placeholder m text) before
        /\ ~ whole_word_placeholder n text
        /\ e = CliError (MissingPlaceholder n)
  end.
Proof. apply check_placeholders_spec, required_names_words. Qed.

(** X10.  The template loader checks the placeholders before it hands the
    text to the engine, and leaves the text as it is.  A missing file gives
    the template-not-found error; a text without one of the four
    placeholders gives the missing-placeholder error, whatever the engine
    would say of it; and a text with all four gives what the engine gives
    on that very text: the compiled template or the engine's own error. *)
Theorem load_template_spec (template : Type)
    (Template : string -> outcome template) (file : option string) :
  match load_template Template file with
  | Return t =>
      exists text,
        file = Some text
        /\ Forall (fun n => whole_word_placeholder n text) required_names
        /\ Template text = Return t
  | Raise e =>
      (file = None /\ e = CliError TemplateNotFound)
      \/ (exists text n,
            file = Some text /\ In n required_names
            /\ ~ whole_word_placeholder n text
            /\ e = CliError (MissingPlaceholder n))
      \/ (exists text,
            file = Some text
            /\ Forall (fun n => whole_word_placeholder n text) required_names
            /\ Template text = Raise e)
  end.
Proof.
  destruct file as [text|]; cbn [load_template]; [|now left].
  pose proof (check_placeholders_spec required_names text required_names_words) as H.
  fold (ensure_placeholders text) in H.
  destruct (ensure_placeholders text) as [u|e]; cbn [bind].
  - destruct (Template text) as [t|e] eqn:Et.
    + exists text. now repeat split.
    + right. right. exists text. now repeat split.
  - right. left. destruct H as (before & n & after & E & _ & Hn & ->).
    exists text, n. repeat split; try assumption.
    rewrite E. apply in_or_app. right. now left.
Qed.

(** A text with the four names in one placeholder passes the check; an
    engine that refuses it has its error come out of the loader. *)
Example load_template_engine_error :
  load_template (fun _ => Raise TemplateSyntaxError : outcome string)
    (Some "{{ product price qty total }}")
  = Raise TemplateSyntaxError.
Proof. reflexivity. Qed.

(** ** Header names and row keys *)

Lemma make_row_absent k ks : forall row acc,
  ~ In k ks ->
  Csv.dict_find k (Csv.make_row acc ks row) = Csv.dict_find k acc.
Proof.
  induction ks as [|k0 ks IH]; intros row acc H; [reflexivity|].
  assert (Hk : String.eqb k k0 = false).
  { apply String.eqb_neq. intros ->. apply H. now left. }
  assert (Hks : ~ In k ks) by (intros Hin; apply H; now right).
  destruct row as [|v row]; cbn [Csv.make_row];
    rewrite (IH _ _ Hks), dict_find_set, Hk; reflexivity.
Qed.

Lemma for_rows_first_row h e rs : forall r more items total,
  data_rows rs = r :: more ->
  (forall items total, process_row (Csv.make_row [] h r) items total = Raise e) ->
  for_rows h rs items total = Raise e.
Proof.
  induction rs as [| r0 rest IH | x]; intros r more items total Hd Hp.
  - discriminate Hd.
  - destruct r0 as [|f r0].
    + cbn [data_rows for_rows] in *. eapply IH; eassumption.
    + cbn [data_rows] in Hd. injection Hd as <- _.
      rewrite for_rows_cons, Hp. reflexivity.
  - discriminate Hd.
Qed.

(** X11.  The cells are read under the keys product, price and qty as the
    header spells them: when the header passes the column check and no
    name in it is exactly product, the first data row makes the loader
    raise the empty-product error, whatever the row holds. *)
Theorem product_key_is_exact sniff content d h rest r more :
  is_empty (PyStr.strip (Csv.read_text content)) = false ->
  sniff (Csv.read_text content) = Some (String d "") ->
  mem (String d "") [","; ";"] = true ->
  Csv.reader d content = Csv.Row h rest ->
  h <> [] ->
  missing_columns (normalized h) = [] ->
  ~ In "product" h ->
  data_rows rest = r :: more ->
  read_csv_rows sniff (Some content) = Raise (CliError EmptyProduct).
Proof.
  intros Hne Hs Hd Hr Hh Hm Hkey Hrows.
  rewrite (read_csv_rows_after_header sniff content d h rest) by assumption.
  rewrite Hm.
  rewrite (for_rows_first_row h (CliError EmptyProduct) rest r more [] zero_total Hrows);
    [reflexivity|].
  intros items total. unfold process_row, Csv.get.
  rewrite (make_row_absent "product" h r [] Hkey). reflexivity.
Qed.

Lemma product_key_is_exact_witness :
  read_csv_rows (sniffed ",") (Some capital_header) = Raise (CliError EmptyProduct).
Proof.
  apply (product_key_is_exact (sniffed ",") capital_header ","%char
           ["Product"; "Price"; "Qty"]
           (Csv.Row ["Apple"; "1.50"; "2"] (Csv.Row ["Bread"; "0.99"; "3"] Csv.Stop))
           ["Apple"; "1.50"; "2"] [["Bread"; "0.99"; "3"]]);
    try reflexivity; try discriminate.
  cbn. intros [H | [H | [H | []]]]; discriminate H.
Defined.

(** ** A file that starts with an empty line *)

Lemma reader_leading_newline d c rest :
  Csv.is_newline c = true ->
  exists rs, Csv.reader d (String c rest) = Csv.Row [] rs.
Proof.
  intros Hc. unfold Csv.reader. rewrite file_lines_cons.
  unfold Csv.is_newline in Hc.
  destruct (Ascii.eqb_spec c Csv.LF) as [->|Hl].
  - eexists. reflexivity.
  - destruct (Ascii.eqb_spec c Csv.CR) as [->|Hr]; [|discriminate Hc].
    destruct rest as [|c' rest']; [eexists; reflexivity|].
    destruct (Ascii.eqb c' Csv.LF); eexists; reflexivity.
Qed.

(** X12.  The header is the first line of the file even when that line is
    empty: a file with text that starts with a line break is refused with
    the no-header error, wherever its header line stands. *)
Theorem leading_blank_line_no_header sniff c rest d :
  Csv.is_newline c = true ->
  is_empty (PyStr.strip (Csv.read_text (String c rest))) = false ->
  sniff (Csv.read_text (String c rest)) = Some (String d "") ->
  mem (String d "") [","; ";"] = true ->
  read_csv_rows sniff (Some (String c rest)) = Raise (CliError NoHeader).
Proof.
  intros Hc Hne Hs Hd.
  destruct (reader_leading_newline d c rest Hc) as [rs Hr].
  unfold read_csv_rows, detect_delimiter. rewrite Hne, Hs, Hd. cbn [bind].
  rewrite Hr. reflexivity.
Qed.

Lemma leading_blank_line_no_header_witness :
  read_csv_rows (sniffed ",") (Some (nl ++ apple_bread)) = Raise (CliError NoHeader).
Proof.
  apply (leading_blank_line_no_header (sniffed ",") Csv.LF apple_bread ","%char);
    reflexivity.
Defined.

(** ** Commas in a price *)

Section Comma.

Import Decimal.

Local Abbreviation has_comma := (PyStr.contains ",").

Lemma span_digits_spec s :
  s = fst (PyStr.span_digits s) ++ snd (PyStr.span_digits s)
  /\ PyStr.forallb PyStr.isdecimal (fst (PyStr.span_digits s)) = true.
Proof.
  induction s as [|c s [IH1 IH2]]; [now split|].
  cbn [PyStr.span_digits]. destruct (PyStr.isdecimal c) eqn:Ec.
  - destruct (PyStr.span_digits s) as [ds r]. cbn [fst snd] in *.
    cbn [append PyStr.forallb]. rewrite Ec, IH2. split; [now f_equal | reflexivity].
  - now split.
Qed.

Lemma digits_no_comma ds :
  PyStr.forallb PyStr.isdecimal ds = true -> has_comma ds = false.
Proof.
  induction ds as [|c ds IH]; [reflexivity|].
  cbn [PyStr.forallb PyStr.contains]. rewrite andb_true_iff. intros [Hc Hd].
  rewrite (IH Hd). destruct (Ascii.eqb_spec "," c) as [<-|]; [discriminate Hc | reflexivity].
Qed.

(** The digits taken from the front hold no comma: it stays in the rest. *)
Lemma span_digits_comma s :
  has_comma (snd (PyStr.span_digits s)) = has_comma s.
Proof.
  destruct (span_digits_spec s) as [H1 H2].
  rewrite H1 at 2. rewrite contains_app, (digits_no_comma _ H2). reflexivity.
Qed.

Lemma lstrip_comma s : has_comma (PyStr.lstrip s) = has_comma s.
Proof.
  induction s as [|c s IH]; [reflexivity|].
  cbn [PyStr.lstrip PyStr.contains]. destruct (PyStr.isspace c) eqn:Ec; [|reflexivity].
  rewrite IH. destruct (Ascii.eqb_spec "," c) as [<-|]; [discriminate Ec | reflexivity].
Qed.

Lemma rstrip_comma s : has_comma (PyStr.rstrip s) = has_comma s.
Proof.
  induction s as [|c s IH]; [reflexivity|].
  cbn [PyStr.rstrip PyStr.contains]. rewrite <- IH.
  destruct (PyStr.rstrip s) as [|c' t]; cbn [PyStr.contains].
  - destruct (PyStr.isspace c) eqn:Ec; cbn [PyStr.contains]; [|reflexivity].
    destruct (Ascii.eqb_spec "," c) as [<-|]; [discriminate Ec | reflexivity].
  - reflexivity.
Qed.

Lemma strip_comma s : has_comma (PyStr.strip s) = has_comma s.
Proof. unfold PyStr.strip. now rewrite rstrip_comma, lstrip_comma. Qed.

Lemma remove_underscore_comma s : has_comma (PyStr.remove "_" s) = has_comma s.
Proof.
  induction s as [|c s IH]; [reflexivity|].
  cbn [PyStr.remove PyStr.contains].
  destruct (Ascii.eqb_spec "_" c) as [<-|]; cbn [PyStr.contains]; now rewrite IH.
Qed.

Lemma ci_prefix_comma p : forall s r,
  has_comma p = false ->
  ci_prefix p s = Some r -> has_comma r = has_comma s.
Proof.
  induction p as [|a p IH]; intros s r Hp H.
  - cbn in H. now injection H as <-.
  - destruct s as [|c s]; [discriminate H|].
    cbn [PyStr.contains] in Hp. apply orb_false_iff in Hp. destruct Hp as [Ha Hp].
    cbn [ci_prefix] in H.
    destruct (Ascii.eqb_spec a (PyStr.lower_char c)) as [E|]; [|discriminate H].
    rewrite (IH _ _ Hp H). cbn [PyStr.contains].
    destruct (Ascii.eqb_spec "," c) as [<-|]; [|reflexivity].
    subst a. discriminate Ha.
Qed.

Lemma sign_split_comma s :
  has_comma s = true ->
  has_comma (snd (match s with
                  | String "-" r => (true, r)
                  | String "+" r => (false, r)
                  | _ => (false, s)
                  end)) = true.
Proof.
  destruct s as [|c s]; [discriminate|].
  destruct c as [[] [] [] [] [] [] [] []]; intros H; exact H.
Qed.

Lemma frac_split_comma r1 :
  has_comma r1 = true ->
  has_comma (snd (match r1 with
                  | String "." r => PyStr.span_digits r
                  | _ => (EmptyString, r1)
                  end)) = true.
Proof.
  destruct r1 as [|c r]; [discriminate|].
  destruct c as [[] [] [] [] [] [] [] []]; intros H; try exact H.
  rewrite span_digits_comma. exact H.
Qed.

Lemma lower_e_not_comma c r :
  Ascii.eqb (PyStr.lower_char c) "e" = true ->
  has_comma (String c r) = has_comma r.
Proof.
  intros H. cbn [PyStr.contains].
  destruct (Ascii.eqb_spec "," c) as [<-|]; [discriminate H | reflexivity].
Qed.

(** The numeric part of the grammar takes no comma. *)
Lemma parse_number_comma r : has_comma r = true -> parse_number r = None.
Proof.
  intros H. unfold parse_number.
  pose proof (span_digits_comma r) as H1. rewrite H in H1.
  destruct (PyStr.span_digits r) as [ip r1]. cbn [snd] in H1.
  pose proof (frac_split_comma r1 H1) as H2.
  match goal with
  | |- context [let (_, _) := ?m in _] => destruct m as [fp r2]
  end.
  cbn [snd] in H2.
  assert (Hbody :
    match r2 with
    | EmptyString =>
        Some (PyStr.digits_value 0 (ip ++ fp), - Z.of_nat (String.length fp))
    | String c r3 =>
        if Ascii.eqb (PyStr.lower_char c) "e" then
          let (neg, r4) :=
            match r3 with
            | String "-" r => (true, r)
            | String "+" r => (false, r)
            | _ => (false, r3)
            end in
          match PyStr.span_digits r4 with
          | (String d ds, EmptyString) =>
              let e := Z.of_N (PyStr.digits_value 0 (String d ds)) in
              Some (PyStr.digits_value 0 (ip ++ fp),
                    (if neg then - e else e) - Z.of_nat (String.length fp))
          | _ => None
          end
        else None
    end = None).
  { destruct r2 as [|c r3]; [discriminate H2|].
    destruct (Ascii.eqb (PyStr.lower_char c) "e") eqn:Ee; [|reflexivity].
    rewrite (lower_e_not_comma c r3 Ee) in H2.
    pose proof (sign_split_comma r3 H2) as H3.
    match goal with
    | |- context [let (_, _) := ?m in _] => destruct m as [neg r4]
    end.
    cbn [snd] in H3.
    pose proof (span_digits_comma r4) as H4. rewrite H3 in H4.
    destruct (PyStr.span_digits r4) as [ds rest]. cbn [snd] in H4.
    destruct ds; [reflexivity|]. destruct rest; [discriminate H4 | reflexivity]. }
  destruct ip, fp; try reflexivity; exact Hbody.
Qed.

(** Nor do the infinities and the NaNs. *)
Lemma parse_special_comma sign r :
  has_comma r = true -> parse_special sign r = None.
Proof.
  intros H. unfold parse_special.
  destruct (ci_prefix "inf" r) as [r1|] eqn:E1.
  - pose proof (ci_prefix_comma "inf" r r1 eq_refl E1) as H1. rewrite H in H1.
    destruct r1 as [|c r1']; [discriminate H1|].
    destruct (ci_prefix "inity" (String c r1')) as [r2|] eqn:E2; [|reflexivity].
    pose proof (ci_prefix_comma "inity" _ r2 eq_refl E2) as H2. rewrite H1 in H2.
    destruct r2; [discriminate H2 | reflexivity].
  - assert (Hs : has_comma (snd (match ci_prefix "s" r with
                                 | Some r' => (true, r')
                                 | None => (false, r)
                                 end)) = true).
    { destruct (ci_prefix "s" r) as [r'|] eqn:Es; cbn [snd]; [|exact H].
      rewrite (ci_prefix_comma "s" r r' eq_refl Es). exact H. }
    match goal with
    | |- context [let (_, _) := ?m in _] => destruct m as [sg r2]
    end.
    cbn [snd] in Hs.
    destruct (ci_prefix "nan" r2) as [diag|] eqn:En; [|reflexivity].
    pose proof (ci_prefix_comma "nan" r2 diag eq_refl En) as Hd. rewrite Hs in Hd.
    pose proof (span_digits_comma diag) as H4. rewrite Hd in H4.
    destruct (PyStr.span_digits diag) as [ds rest]. cbn [snd] in H4.
    destruct rest; [discriminate H4 | reflexivity].
Qed.

Lemma of_string_comma value :
  has_comma value = true -> of_string value = Raise InvalidOperation.
Proof.
  intros H. unfold of_string.
  assert (H1 : has_comma (PyStr.remove "_" (PyStr.strip value)) = true)
    by now rewrite remove_underscore_comma, strip_comma.
  pose proof (sign_split_comma _ H1) as H2.
  match goal with
  | |- context [let (_, _) := ?m in _] => destruct m as [sg r]
  end.
  cbn [snd] in H2.
  now rewrite (parse_number_comma r H2), (parse_special_comma sg r H2).
Qed.

Lemma strip_contains c s :
  PyStr.isspace c = false ->
  PyStr.contains c (PyStr.strip s) = PyStr.contains c s.
Proof.
  intros Hc. unfold PyStr.strip.
  transitivity (PyStr.contains c (PyStr.lstrip s)).
  - generalize (PyStr.lstrip s). intros t.
    induction t as [|d t IH]; [reflexivity|].
    cbn [PyStr.rstrip PyStr.contains]. rewrite <- IH.
    destruct (PyStr.rstrip t) as [|d' t']; cbn [PyStr.contains]; [|reflexivity].
    destruct (PyStr.isspace d) eqn:Ed; cbn [PyStr.contains]; [|reflexivity].
    destruct (Ascii.eqb_spec c d) as [<-|]; [congruence | reflexivity].
  - induction s as [|d s IH]; [reflexivity|].
    cbn [PyStr.lstrip PyStr.contains].
    destruct (PyStr.isspace d) eqn:Ed; [|reflexivity].
    rewrite IH. destruct (Ascii.eqb_spec c d) as [<-|]; [congruence | reflexivity].
Qed.

(** X13.  A price cell with a comma anywhere in it is always refused, and
    the error is decided by the dot: without a dot in the cell it is the
    error that asks for a dot instead of the comma; with a dot it is the
    invalid-value error, carrying the trimmed text.  No thousands separator
    is ever read as part of a number. *)
Theorem price_with_comma_refused raw :
  PyStr.contains "," (or_empty raw) = true ->
  parse_price raw
  = Raise (CliError (if PyStr.contains "." (or_empty raw)
                     then PriceInvalid (PyStr.strip (or_empty raw))
                     else PriceCommaSeparator)).
Proof.
  intros H. unfold parse_price.
  assert (Ht : has_comma (PyStr.strip (or_empty raw)) = true)
    by now rewrite strip_comma.
  rewrite <- (strip_contains "." (or_empty raw) eq_refl).
  destruct (PyStr.strip (or_empty raw)) as [|c t] eqn:Et; [discriminate Ht|].
  cbn [is_empty]. rewrite Ht. cbn [andb].
  destruct (PyStr.contains "." (String c t)); cbn [negb]; [|reflexivity].
  now rewrite (of_string_comma _ Ht).
Qed.

Lemma price_with_comma_refused_witness :
  parse_price (Some "1,5") = Raise (CliError PriceCommaSeparator)
  /\ parse_price (Some " 1,234.50") = Raise (CliError (PriceInvalid "1,234.50")).
Proof.
  split.
  - exact (price_with_comma_refused (Some "1,5") eq_refl).
  - exact (price_with_comma_refused (Some " 1,234.50") eq_refl).
Defined.

End Comma.

(** ** Amounts as they are printed *)

Section Printed.

Import Decimal.

Lemma forallb_app p a b :
  PyStr.forallb p (a ++ b) = PyStr.forallb p a && PyStr.forallb p b.
Proof.
  induction a as [|c a IH]; [reflexivity|].
  cbn [append PyStr.forallb]. now rewrite IH, andb_assoc.
Qed.

Lemma forallb_weaken (p q : ascii -> bool) s :
  (forall c, p c = true -> q c = true) ->
  PyStr.forallb p s = true -> PyStr.forallb q s = true.
Proof.
  intros Hpq. induction s as [|c s IH]; [reflexivity|].
  cbn [PyStr.forallb]. rewrite !andb_true_iff. intros [H1 H2].
  split; [now apply Hpq | now apply IH].
Qed.

Lemma amount_char_plain c :
  amount_char c = true -> PyStr.isspace c = false /\ Ascii.eqb "_" c = false.
Proof.
  destruct c as [[] [] [] [] [] [] [] []]; intros H;
    try discriminate H; split; reflexivity.
Qed.

Lemma strip_amount s : PyStr.forallb amount_char s = true -> PyStr.strip s = s.
Proof.
  intros H. unfold PyStr.strip.
  replace (PyStr.lstrip s) with s.
  - induction s as [|c s IH]; [reflexivity|].
    cbn [PyStr.forallb] in H. apply andb_true_iff in H. destruct H as [Hc Hs].
    cbn [PyStr.rstrip]. rewrite (IH Hs).
    destruct (amount_char_plain c Hc) as [-> _]. destruct s; reflexivity.
  - destruct s as [|c s]; [reflexivity|].
    cbn [PyStr.forallb] in H. apply andb_true_iff in H. destruct H as [Hc _].
    cbn [PyStr.lstrip]. now destruct (amount_char_plain c Hc) as [-> _].
Qed.

Lemma remove_amount s :
  PyStr.forallb amount_char s = true -> PyStr.remove "_" s = s.
Proof.
  induction s as [|c s IH]; [reflexivity|].
  cbn [PyStr.forallb]. rewrite andb_true_iff. intros [Hc Hs].
  cbn [PyStr.remove]. destruct (amount_char_plain c Hc) as [_ ->].
  now rewrite (IH Hs).
Qed.

Lemma span_digits_app ds c r :
  PyStr.forallb PyStr.isdecimal ds = true ->
  PyStr.isdecimal c = false ->
  PyStr.span_digits (ds ++ String c r) = (ds, String c r).
Proof.
  intros Hds Hc. induction ds as [|d ds IH].
  - cbn [append PyStr.span_digits]. now rewrite Hc.
  - cbn [PyStr.forallb] in Hds. apply andb_true_iff in Hds.
    destruct Hds as [Hd Hds].
    cbn [append PyStr.span_digits]. now rewrite Hd, (IH Hds).
Qed.

Lemma span_digits_all ds :
  PyStr.forallb PyStr.isdecimal ds = true ->
  PyStr.span_digits ds = (ds, EmptyString).
Proof.
  induction ds as [|d ds IH]; [reflexivity|].
  cbn [PyStr.forallb]. rewrite andb_true_iff. intros [Hd Hds].
  cbn [PyStr.span_digits]. now rewrite Hd, (IH Hds).
Qed.

Lemma digits_value_app a : forall acc b,
  PyStr.digits_value acc (a ++ b)
  = PyStr.digits_value (PyStr.digits_value acc a) b.
Proof.
  induction a as [|c a IH]; intros acc b; [reflexivity|].
  cbn [append PyStr.digits_value]. apply IH.
Qed.

(** The digits [str] writes for a number. *)
Lemma uint_digits d :
  PyStr.forallb PyStr.isdecimal (NilEmpty.string_of_uint d) = true.
Proof. induction d; cbn [NilEmpty.string_of_uint PyStr.forallb]; auto. Qed.

Lemma digits_value_uint_acc d : forall acc,
  PyStr.digits_value (Npos acc) (NilEmpty.string_of_uint d)
  = Npos (Pos.of_uint_acc d acc).
Proof.
  induction d; intros acc;
    cbn [NilEmpty.string_of_uint PyStr.digits_value Pos.of_uint_acc];
    [reflexivity | rewrite <- IHd; f_equal ..].
  all: unfold PyStr.digit_value, PyStr.code; cbn [N_of_ascii N_of_digits]; lia.
Qed.

Lemma digits_value_uint d :
  PyStr.digits_value 0 (NilEmpty.string_of_uint d) = N.of_uint d.
Proof.
  unfold N.of_uint.
  induction d; cbn [NilEmpty.string_of_uint PyStr.digits_value Pos.of_uint];
    [reflexivity | exact IHd | ..].
  all: match goal with
       | |- PyStr.digits_value ?a _ = _ =>
           let v := eval vm_compute in a in change a with v
       end; apply digits_value_uint_acc.
Qed.

Lemma str_of_N_digits n :
  PyStr.forallb PyStr.isdecimal (PyStr.str_of_N n) = true.
Proof. apply uint_digits. Qed.

Lemma str_of_N_value n : PyStr.digits_value 0 (PyStr.str_of_N n) = n.
Proof.
  unfold PyStr.str_of_N. rewrite digits_value_uint.
  apply DecimalN.Unsigned.of_to.
Qed.

Lemma str_of_N_nonempty n : PyStr.str_of_N n <> EmptyString.
Proof.
  intros H. pose proof (str_of_N_value n) as Hv. rewrite H in Hv.
  cbn [PyStr.digits_value] in Hv. subst n. discriminate H.
Qed.

Lemma hundredths_spec m :
  (m < 100)%N ->
  exists d1 d2,
    hundredths m = String d1 (String d2 EmptyString)
    /\ PyStr.isdecimal d1 = true /\ PyStr.isdecimal d2 = true
    /\ (10 * PyStr.digit_value d1 + PyStr.digit_value d2 = m)%N.
Proof.
  intros Hm.
  assert (Hall : List.forallb hundredths_ok (map N.of_nat (seq 0 100)) = true)
    by (vm_compute; reflexivity).
  rewrite forallb_forall in Hall.
  assert (Hok : hundredths_ok m = true).
  { apply Hall. apply in_map_iff. exists (N.to_nat m).
    split; [apply N2Nat.id | apply in_seq; lia]. }
  unfold hundredths_ok in Hok.
  destruct (hundredths m) as [|d1 [|d2 [|]]]; try discriminate Hok.
  apply andb_true_iff in Hok. destruct Hok as [Hok H3].
  apply andb_true_iff in Hok. destruct Hok as [H1 H2].
  apply N.eqb_eq in H3. now exists d1, d2.
Qed.

Lemma format_two_places s c :
  format_2f (Fin s c (-2))
  = (if s then "-" else "") ++ PyStr.str_of_N (c / 100) ++ "."
    ++ hundredths (c mod 100).
Proof.
  unfold format_2f, _rescale, hundredths.
  destruct (N.eqb_spec c 0) as [->|_]; [reflexivity|].
  change (-2 <=? -2) with true. cbv iota.
  change (pow10 (-2 - -2)) with 1%N. now rewrite N.mul_1_r.
Qed.

Lemma parse_number_two_places c :
  parse_number (PyStr.str_of_N (c / 100) ++ "." ++ hundredths (c mod 100))
  = Some (c, -2).
Proof.
  destruct (hundredths_spec (c mod 100)) as (d1 & d2 & -> & H1 & H2 & Hm);
    [apply N.mod_lt; discriminate|].
  pose proof (str_of_N_digits (c / 100)) as Hq.
  pose proof (str_of_N_value (c / 100)) as Hv.
  pose proof (str_of_N_nonempty (c / 100)) as Hne.
  unfold parse_number. cbn [append].
  rewrite (span_digits_app _ "." _ Hq eq_refl).
  cbn [PyStr.span_digits]. rewrite H1, H2.
  destruct (PyStr.str_of_N (c / 100)) as [|q0 qs] eqn:Eq; [congruence|].
  cbv beta iota zeta.
  rewrite digits_value_app, Hv. cbn [PyStr.digits_value String.length].
  do 2 f_equal.
  pose proof (N.div_mod c 100 ltac:(discriminate)). lia.
Qed.

(** Reading back what [f"{d:.2f}"] wrote gives the number itself. *)
Lemma of_string_format_two_places s c :
  of_string (format_2f (Fin s c (-2))) = Return (Fin s c (-2)).
Proof.
  rewrite format_two_places.
  pose proof (parse_number_two_places c) as Hp.
  set (body := PyStr.str_of_N (c / 100) ++ "." ++ hundredths (c mod 100)) in *.
  assert (Hb : PyStr.forallb amount_char body = true).
  { subst body. rewrite !forallb_app.
    destruct (hundredths_spec (c mod 100)) as (d1 & d2 & -> & H1 & H2 & _);
      [apply N.mod_lt; discriminate|].
    rewrite (forallb_weaken PyStr.isdecimal amount_char _
               ltac:(intros ? H; unfold amount_char; now rewrite H)
               (str_of_N_digits (c / 100))).
    cbn [PyStr.forallb]. unfold amount_char at 2 3. now rewrite H1, H2. }
  assert (Hhead : exists d ds, body = String d ds /\ PyStr.isdecimal d = true).
  { subst body. pose proof (str_of_N_digits (c / 100)) as Hq.
    pose proof (str_of_N_nonempty (c / 100)) as Hne.
    destruct (PyStr.str_of_N (c / 100)) as [|d ds]; [congruence|].
    cbn [PyStr.forallb] in Hq. apply andb_true_iff in Hq.
    exists d, (ds ++ "." ++ hundredths (c mod 100)). now split. }
  unfold of_string. destruct s.
  - change ("-" ++ body) with (String "-" body).
    rewrite strip_amount, remove_amount
      by (cbn [PyStr.forallb]; now rewrite Hb).
    cbv beta iota zeta. now rewrite Hp.
  - cbn [append]. rewrite strip_amount, remove_amount by exact Hb.
    destruct Hhead as (d & ds & Eb & Hd). rewrite Eb in *.
    destruct d as [[] [] [] [] [] [] [] []]; try discriminate Hd;
      cbv beta iota zeta; now rewrite Hp.
Qed.

(** The lines behind the items of a receipt. *)
Lemma receipt_lines sniff file items total :
  read_csv_rows sniff file = Return (items, total) ->
  exists lines,
    items = map item_of_line lines
    /\ Forall line_ok lines
    /\ two_places total
    /\ Exact.of_decimal total
       = Exact.round_half_up 2
           (Exact.sum (map (fun l => Exact.of_decimal (l_total l)) lines)).
Proof.
  intros H.
  destruct (read_csv_rows_inv _ _ _ _ H) as (h & rs & t & Hf & Hq).
  assert (Hzero : running zero_total 0).
  { exists 0%N, (-2). split; [reflexivity|]. left.
    split; [reflexivity | split; [reflexivity|]].
    change (ndigits 0) with 1. unfold prec. lia. }
  destruct (for_rows_running h rs [] zero_total 0 items t Hf Hzero)
    as (lines & -> & Hls & (c & e & -> & Hrun)).
  exists lines. cbn [app]. split; [reflexivity|]. split; [assumption|].
  destruct Hrun as [(-> & Hc & Hn) | [Hc Hw]].
  - rewrite quantize_two_places in Hq by assumption. injection Hq as <-.
    split; [now exists false, c|].
    rewrite sum_two_places.
    + cbn [Exact.of_decimal]. f_equal. rewrite Hc. cbn [Z.add].
      clear. induction lines as [|l lines IH]; [reflexivity|].
      cbn [map fold_right sum_cents]. fold (sum_cents lines). now rewrite IH.
    + clear - Hls. induction Hls as [|l lines Hl _ IH]; constructor; [|assumption].
      destruct Hl as (_ & (s & c & ->) & _). reflexivity.
  - rewrite quantize_too_wide in Hq by assumption. discriminate Hq.
Qed.

Lemma read_back d :
  two_places d -> of_string (format_2f d) = Return d.
Proof. intros (s & c & ->). apply of_string_format_two_places. Qed.

(** X14.  The figures of a receipt add up as they are printed.  For every
    receipt the loader returns, the price and the line total written in
    each item read back as numbers with two places, the line total being
    the price times the quantity rounded half up; the total is the sum of
    the line totals read back from the items, rounded half up to two
    places; and the total, written with two places for the page, reads
    back as itself: writing the amounts as text loses nothing. *)
Theorem printed_receipt_adds_up sniff file items total :
  read_csv_rows sniff file = Return (items, total) ->
  Forall item_adds_up items
  /\ (exists ts,
        Forall2 (fun it t => of_string (line_total it) = Return t) items ts
        /\ Exact.of_decimal total
           = Exact.round_half_up 2 (Exact.sum (map Exact.of_decimal ts)))
  /\ of_string (format_2f total) = Return total.
Proof.
  intros H.
  destruct (receipt_lines _ _ _ _ H) as (lines & -> & Hls & Ht & Hsum).
  split; [|split].
  - clear - Hls. induction Hls as [|l lines Hl _ IH]; constructor; [|exact IH].
    destruct Hl as (Hp & Hlt & _ & Hmul).
    exists (l_price l), (l_total l). cbn [item_of_line price line_total qty].
    repeat split; try assumption; now apply read_back.
  - exists (map l_total lines). split.
    + clear - Hls. induction Hls as [|l lines Hl _ IH]; constructor; [|exact IH].
      destruct Hl as (_ & Hlt & _). cbn [item_of_line line_total].
      now apply read_back.
    + now rewrite map_map.
  - now apply read_back.
Qed.

Lemma printed_receipt_adds_up_witness :
  Forall item_adds_up
    [mkItem "Apple" "1.50" 2 "3.00"; mkItem "Bread" "0.99" 3 "2.97"]
  /\ (exists ts,
        Forall2 (fun it t => of_string (line_total it) = Return t)
          [mkItem "Apple" "1.50" 2 "3.00"; mkItem "Bread" "0.99" 3 "2.97"] ts
        /\ Exact.of_decimal (Fin false 597 (-2))
           = Exact.round_half_up 2 (Exact.sum (map Exact.of_decimal ts)))
  /\ of_string (format_2f (Fin false 597 (-2))) = Return (Fin false 597 (-2)).
Proof.
  apply (printed_receipt_adds_up (sniffed ",") (Some apple_bread)).
  vm_compute. reflexivity.
Defined.

End Printed.
